(** * ethbinding: the [EthAPI] interface and its implementation [ethAPIShim]

    A model of [pkg/typeutils.go].  The package exposes a Go interface,
    [EthAPI], whose single implementation [ethAPIShim] forwards to
    go-ethereum (packages [hexutil], [common], [abi], [compiler], [rpc],
    [types], [math], [crypto], [rlp]) and, in a few conversion helpers, to
    Go's [encoding/json], [fmt] and [strings].

    None of these libraries is part of the repository, so every function
    of theirs that the shim calls is an operation of a signature
    ([LibCall]); a method of the shim is a program over that signature
    ([Prog]): it returns, panics, or issues a call and continues with the
    answer.  A library is an oracle ([Lib]) that answers each call; equal
    calls get equal answers, which is all the shim can observe of the
    functions it calls more than once in a method ([abi.NewType],
    [Type.String], [json.Marshal], [json.Unmarshal]).

    The arguments of a method are values.  The memory [typeutils.go]
    writes is the two slices it makes itself ([typeStrings] and
    [arguments]); they live in a heap that the methods thread through. *)

From Stdlib Require Import String Ascii List ZArith Lia.
From stdpp Require Import base option list gmap strings.

Open Scope string_scope.
Open Scope list_scope.

(** ** Go values *)

(** A Go pointer [*T]: [null], or the address of a value. *)
Inductive ptr (A : Type) : Type :=
| null : ptr A
| addr_of (v : A) : ptr A.
Arguments null {A}.
Arguments addr_of {A} v.

(** A Go slice [[]T]: the nil slice, or a (possibly empty) sequence. *)
Definition slice (A : Type) : Type := option (list A).

(** [range s] and [len(s)] see a nil slice as empty. *)
Definition elems {A} (s : slice A) : list A :=
  match s with
  | None => []
  | Some l => l
  end.

Definition len {A} (s : slice A) : nat := length (elems s).

(** [s == nil] *)
Definition is_nil {A} (s : slice A) : bool :=
  match s with
  | None => true
  | Some _ => false
  end.

Definition bytes : Type := slice Byte.byte.

(** [uint64] values are only forwarded, never computed with. *)
Definition uint64 : Type := N.

(** [abi.Argument]: the three fields [typeutils.go] assigns. *)
Record Argument (T : Type) : Type := mkArgument {
  arg_Name : string;
  arg_Type : T;
  arg_Indexed : bool
}.
Arguments mkArgument {T} _ _ _.
Arguments arg_Name {T} _.
Arguments arg_Type {T} _.
Arguments arg_Indexed {T} _.

(** Modelled from the spec: the entities are aliases of go-ethereum's own
    types, declared in the repository's types file, which is not among the
    sources.  The shim only forwards their values, so each is a type
    parameter, named by its ethbinding alias; [Err] is the type of non-nil
    [error] values.  [zeroType] is [abi.Type{}], [abi_Function] the constant
    [abi.Function], and the two accessors are the fields of [abi.Event]
    that [ABIEventSignature] reads. *)
Class GethTypes : Type := {
  Err : Type;
  Address : Type;
  Hash : Type;
  BigInt : Type;
  PrivateKey : Type;
  PublicKey : Type;
  Reader : Type;
  ABIType : Type;
  zeroType : ABIType;
  ArgumentMarshaling : Type;
  ABIFunctionType : Type;
  abi_Function : ABIFunctionType;
  ABIEvent : Type;
  Event_RawName : ABIEvent -> string;
  Event_Inputs : ABIEvent -> slice (Argument ABIType);
  ABIMethod : Type;
  ABI : Type;
  RuntimeABI : Type;
  Solidity : Type;
  Contracts : Type;
  RPCClient : Type;
  Transaction : Type;
  Signer : Type;
  EIP155Signer : Type;
  Stream : Type
}.

(** Modelled from the spec: [ABIArgumentMarshaling], the serialized form
    of an ABI argument, is declared in the repository's types file, which
    is not among the sources; these are the fields [typeutils.go] reads. *)
#[warnings="-register-all"]
Inductive ABIArgumentMarshaling : Type := mkABIArgumentMarshaling {
  am_Name : string;
  am_Type : string;
  am_InternalType : string;
  am_Components : slice ABIArgumentMarshaling;
  am_Indexed : bool
}.

(** Modelled from the spec: [ABIElementMarshaling], the serialized form of
    an ABI event or method, is declared in the repository's types file,
    which is not among the sources; these are the fields [typeutils.go]
    reads. *)
Record ABIElementMarshaling : Type := mkABIElementMarshaling {
  em_Name : string;
  em_Anonymous : bool;
  em_Inputs : slice ABIArgumentMarshaling;
  em_Outputs : slice ABIArgumentMarshaling;
  em_StateMutability : string;
  em_Constant : bool;
  em_Payable : bool
}.

(** Modelled from the spec: [ABIMarshaling], the serialized form of a whole
    ABI, is declared in the repository's types file, which is not among the
    sources; the shim only hands it to [json.Marshal]. *)
Definition ABIMarshaling : Type := slice ABIElementMarshaling.

(** ** Result types

    The result type of every library function and of every method of the
    interface, as a code: two results are of the same Go type exactly when
    their codes are equal. *)
Inductive ty : Type :=
| TString | TBool | TBytes | TError
| TAddress | THash | TBigInt | TPrivateKey
| TType | TArgument | TArgumentMarshaling
| TEvent | TMethod | TABI | TRuntimeABI
| TSolidity | TContracts | TRPCClient
| TTransaction | TEIP155Signer | TStream
| TPair (a b : ty)
| TPtr (a : ty)
| TSlice (a : ty).

#[global] Instance ty_eq_dec : EqDecision ty.
Proof. solve_decision. Defined.

Section Model.
Context {GT : GethTypes}.

Definition error : Type := option Err.

Definition ABIArgument : Type := Argument ABIType.
Definition ABIArguments : Type := slice ABIArgument.

Fixpoint denote (t : ty) : Type :=
  match t with
  | TString => string
  | TBool => bool
  | TBytes => bytes
  | TError => error
  | TAddress => Address
  | THash => Hash
  | TBigInt => BigInt
  | TPrivateKey => PrivateKey
  | TType => ABIType
  | TArgument => ABIArgument
  | TArgumentMarshaling => ArgumentMarshaling
  | TEvent => ABIEvent
  | TMethod => ABIMethod
  | TABI => ABI
  | TRuntimeABI => RuntimeABI
  | TSolidity => Solidity
  | TContracts => Contracts
  | TRPCClient => RPCClient
  | TTransaction => Transaction
  | TEIP155Signer => EIP155Signer
  | TStream => Stream
  | TPair a b => (denote a * denote b)%type
  | TPtr a => ptr (denote a)
  | TSlice a => slice (denote a)
  end.

(** The part of a result that is not its trailing [error]. *)
Definition out_ty (t : ty) : ty :=
  match t with
  | TPair a TError => a
  | _ => t
  end.


(** The trailing [error] of a result; [nil] when the result has none. *)
Definition error_of {t : ty} : denote t -> error :=
  match t return denote t -> error with
  | TPair a b =>
      match b return denote (TPair a b) -> error with
      | TError => fun r => snd r
      | _ => fun _ => None
      end
  | _ => fun _ => None
  end.

Definition output_of {t : ty} : denote t -> denote (out_ty t) :=
  match t return denote t -> denote (out_ty t) with
  | TPair a b =>
      match b return denote (TPair a b) -> denote (out_ty (TPair a b)) with
      | TError => fun r => fst r
      | _ => fun r => r
      end
  | _ => fun r => r
  end.

(** ** The libraries

    One operation per external function the shim calls, with the arguments
    the call passes.  A function that writes through a pointer to a zero
    local ([json.Unmarshal] into [&runtime] or [&components]) answers with
    the value the local holds afterwards, next to its [error]. *)
Inductive LibCall : Type :=
| hexutil_Decode (hex : string)
| common_HexToAddress (hex : string)
| common_BytesToAddress (b : bytes)
| common_IsHexAddress (s : string)
| common_HexToHash (hex : string)
| hexutil_EncodeBig (bigint : ptr BigInt)
| common_FromHex (hex : string)
| abi_NewType (t internalType : string) (components : slice ArgumentMarshaling)
| abi_Type_String (t : ABIType)
| abi_NewEvent (name rawName : string) (anonymous : bool) (inputs : ABIArguments)
| abi_NewMethod (name rawName : string) (funType : ABIFunctionType)
    (mutability : string) (isConst isPayable : bool) (inputs outputs : ABIArguments)
| abi_JSON (reader : Reader)
| compiler_SolidityVersion (solc : string)
| compiler_ParseCombinedJSON (combinedJSON : bytes)
    (source languageVersion compilerVersion compilerOptions : string)
| rpc_Dial (rawurl : string)
| types_NewTransaction (nonce : uint64) (to : Address) (amount : ptr BigInt)
    (gasLimit : uint64) (gasPrice : ptr BigInt) (data : bytes)
| types_NewContractCreation (nonce : uint64) (amount : ptr BigInt)
    (gasLimit : uint64) (gasPrice : ptr BigInt) (data : bytes)
| types_NewEIP155Signer (chainID : ptr BigInt)
| math_ParseBig256 (s : string)
| math_S256 (x : ptr BigInt)
| crypto_GenerateKey
| crypto_PubkeyToAddress (p : PublicKey)
| crypto_FromECDSA (priv : ptr PrivateKey)
| crypto_HexToECDSA (hexkey : string)
| rlp_NewStream (r : Reader) (inputLimit : uint64)
| types_SignTx (tx : ptr Transaction) (s : Signer) (prv : ptr PrivateKey)
| json_Marshal_ABIMarshaling (v : ABIMarshaling)
| json_Unmarshal_RuntimeABI (data : bytes)
| json_Marshal_Components (v : slice ABIArgumentMarshaling)
| json_Unmarshal_Components (data : bytes).

(** The result type of each library function. *)
Definition Answer (c : LibCall) : ty :=
  match c with
  | hexutil_Decode _ => TPair TBytes TError
  | common_HexToAddress _ => TAddress
  | common_BytesToAddress _ => TAddress
  | common_IsHexAddress _ => TBool
  | common_HexToHash _ => THash
  | hexutil_EncodeBig _ => TString
  | common_FromHex _ => TBytes
  | abi_NewType _ _ _ => TPair TType TError
  | abi_Type_String _ => TString
  | abi_NewEvent _ _ _ _ => TEvent
  | abi_NewMethod _ _ _ _ _ _ _ _ => TMethod
  | abi_JSON _ => TPair TABI TError
  | compiler_SolidityVersion _ => TPair (TPtr TSolidity) TError
  | compiler_ParseCombinedJSON _ _ _ _ _ => TPair TContracts TError
  | rpc_Dial _ => TPair (TPtr TRPCClient) TError
  | types_NewTransaction _ _ _ _ _ _ => TPtr TTransaction
  | types_NewContractCreation _ _ _ _ _ => TPtr TTransaction
  | types_NewEIP155Signer _ => TEIP155Signer
  | math_ParseBig256 _ => TPair (TPtr TBigInt) TBool
  | math_S256 _ => TPtr TBigInt
  | crypto_GenerateKey => TPair (TPtr TPrivateKey) TError
  | crypto_PubkeyToAddress _ => TAddress
  | crypto_FromECDSA _ => TBytes
  | crypto_HexToECDSA _ => TPair (TPtr TPrivateKey) TError
  | rlp_NewStream _ _ => TPtr TStream
  | types_SignTx _ _ _ => TPair (TPtr TTransaction) TError
  | json_Marshal_ABIMarshaling _ => TPair TBytes TError
  | json_Unmarshal_RuntimeABI _ => TPair TRuntimeABI TError
  | json_Marshal_Components _ => TPair TBytes TError
  | json_Unmarshal_Components _ => TPair (TSlice TArgumentMarshaling) TError
  end.


(** A library: what each call answers. *)
Definition Lib : Type := forall c : LibCall, denote (Answer c).

(** ** Programs over the libraries *)
Inductive Prog (R : Type) : Type :=
| Ret (r : R)
| Panic
| Call (c : LibCall) (k : denote (Answer c) -> Prog R).
Arguments Ret {R} r.
Arguments Panic {R}.
Arguments Call {R} c k.

Fixpoint prog_bind {A B : Type} (p : Prog A) (f : A -> Prog B) : Prog B :=
  match p with
  | Ret a => f a
  | Panic => Panic
  | Call c k => Call c (fun x => prog_bind (k x) f)
  end.

(** Running a program against a library: [None] is a panic. *)
Fixpoint run {R : Type} (L : Lib) (p : Prog R) : option R :=
  match p with
  | Ret r => Some r
  | Panic => None
  | Call c k => run L (k (L c))
  end.

(** The calls a run issues, in order, each with the [error] it answered. *)
Fixpoint call_log {R : Type} (L : Lib) (p : Prog R) : list (LibCall * error) :=
  match p with
  | Ret _ => []
  | Panic => []
  | Call c k => (c, error_of (L c)) :: call_log L (k (L c))
  end.

Definition ncalls {R : Type} (L : Lib) (p : Prog R) : nat := length (call_log L p).

(** ** The heap of the shim's own slices

    [make] allocates the backing array of a slice at a fresh location; an
    indexed assignment updates it in place and panics out of range, as Go's
    bounds check does.  The shim makes slices of two element types. *)
Inductive array : Type :=
| StringArray (a : list string)
| ArgumentArray (a : list ABIArgument).

Abbreviation loc := nat.
Abbreviation heap := (gmap nat array).

(** A method of the shim: a program that threads the heap. *)
Definition M (R : Type) : Type := heap -> Prog (R * heap).

Definition ret {R} (r : R) : M R := fun h => Ret (r, h).

Definition bind {A B} (m : M A) (f : A -> M B) : M B :=
  fun h => prog_bind (m h) (fun '(a, h') => f a h').

Definition panic {R} : M R := fun _ => Panic.

Definition call (c : LibCall) : M (denote (Answer c)) :=
  fun h => Call c (fun x => Ret (x, h)).

#[global] Instance M_ret : MRet M := @ret.
#[global] Instance M_bind : MBind M := fun A B f m => bind m f.

(** [*p]: a nil pointer dereference panics. *)
Definition deref {A} (p : ptr A) : M A :=
  match p with
  | null => panic
  | addr_of v => ret v
  end.

(** [make([]string, n)] *)
Definition make_strings (n : nat) : M loc :=
  fun h =>
    let l := fresh (dom h) in
    Ret (l, <[l := StringArray (replicate n "")]> h).

(** [s[i] = v] on a [[]string] *)
Definition set_string (l : loc) (i : nat) (v : string) : M unit :=
  fun h =>
    match h !! l with
    | Some (StringArray a) =>
        if decide (i < length a)
        then Ret (tt, <[l := StringArray (<[i := v]> a)]> h)
        else Panic
    | _ => Panic
    end.

(** Reading a [[]string] as a whole, as [strings.Join] does. *)
Definition read_strings (l : loc) : M (list string) :=
  fun h =>
    match h !! l with
    | Some (StringArray a) => Ret (a, h)
    | _ => Panic
    end.

Definition zeroArgument : ABIArgument := mkArgument "" zeroType false.

(** [make(ABIArguments, n)] *)
Definition make_arguments (n : nat) : M loc :=
  fun h =>
    let l := fresh (dom h) in
    Ret (l, <[l := ArgumentArray (replicate n zeroArgument)]> h).

(** [s[i].f = v] on an [ABIArguments], [upd] setting the field *)
Definition update_argument (l : loc) (i : nat) (upd : ABIArgument -> ABIArgument)
  : M unit :=
  fun h =>
    match h !! l with
    | Some (ArgumentArray a) =>
        match a !! i with
        | Some x => Ret (tt, <[l := ArgumentArray (<[i := upd x]> a)]> h)
        | None => Panic
        end
    | _ => Panic
    end.

Definition read_arguments (l : loc) : M (list ABIArgument) :=
  fun h =>
    match h !! l with
    | Some (ArgumentArray a) => Ret (a, h)
    | _ => Panic
    end.

Definition set_Type (t : ABIType) (x : ABIArgument) : ABIArgument :=
  mkArgument (arg_Name x) t (arg_Indexed x).
Definition set_Name (n : string) (x : ABIArgument) : ABIArgument :=
  mkArgument n (arg_Type x) (arg_Indexed x).
Definition set_Indexed (b : bool) (x : ABIArgument) : ABIArgument :=
  mkArgument (arg_Name x) (arg_Type x) b.

(** [for i, x := range l { body }], from index [i] on. *)
Fixpoint range_from {A} (body : nat -> A -> M unit) (i : nat) (l : list A) : M unit :=
  match l with
  | [] => ret tt
  | x :: l' => body i x;; range_from body (S i) l'
  end.

(** The same loop with a body that may [return]: [Some r] leaves the
    function with [r], [None] goes on. *)
Fixpoint range_return_from {A R} (body : nat -> A -> M (option R)) (i : nat) (l : list A)
  : M (option R) :=
  match l with
  | [] => ret None
  | x :: l' =>
      r ← body i x;
      match r with
      | Some v => ret (Some v)
      | None => range_return_from body (S i) l'
      end
  end.

(** ** [strings] and [fmt] *)

(** [strings.Join]: nothing for no element, the element itself for one,
    otherwise a builder that takes the first element and then, for each
    further one, the separator and the element. *)
Definition strings_Join (elems : list string) (sep : string) : string :=
  match elems with
  | [] => ""
  | [s] => s
  | s :: rest => fold_left (fun b x => b +:+ sep +:+ x) rest s
  end.

(** [fmt.Sprintf("%v(%v)", a, b)] on two strings *)
Definition Sprintf_v_paren_v (a b : string) : string := a +:+ "(" +:+ b +:+ ")".

(** ** The shim *)

(** [type ethAPIShim struct{}] *)
Record ethAPIShim : Type := mk_ethAPIShim { }.

(** [var EthAPIShim EthAPI = &ethAPIShim{}] *)
Definition EthAPIShim : ethAPIShim := mk_ethAPIShim.

Definition HexDecode (e : ethAPIShim) (hex : string) : M (bytes * error) :=
  call (hexutil_Decode hex).

Definition HexToAddress (e : ethAPIShim) (hex : string) : M Address :=
  addr ← call (common_HexToAddress hex);
  ret addr.

Definition BytesToAddress (e : ethAPIShim) (b : bytes) : M Address :=
  call (common_BytesToAddress b).

Definition IsHexAddress (e : ethAPIShim) (s : string) : M bool :=
  call (common_IsHexAddress s).

Definition HexToHash (e : ethAPIShim) (hex : string) : M Hash :=
  hash ← call (common_HexToHash hex);
  ret hash.

Definition EncodeBig (e : ethAPIShim) (bigint : ptr BigInt) : M string :=
  call (hexutil_EncodeBig bigint).

Definition FromHex (e : ethAPIShim) (hex : string) : M bytes :=
  call (common_FromHex hex).

Definition ABITypeFor (e : ethAPIShim) (typeName : string) : M (ABIType * error) :=
  '(t, err) ← call (abi_NewType typeName "" (Some []));
  ret (t, err).

Definition ABITypeKnown (e : ethAPIShim) (typeName : string) : M ABIType :=
  '(t, _) ← call (abi_NewType typeName "" (Some []));
  ret t.

Definition NewType (e : ethAPIShim) (typeName internalType : string)
  : M (ABIType * error) :=
  call (abi_NewType typeName internalType (Some [])).

(** The body of the loop of [ABIEventSignature]:
    [typeStrings[i] = input.Type.String()] *)
Definition signature_step (typeStrings : loc) (i : nat) (input : ABIArgument) : M unit :=
  s ← call (abi_Type_String (arg_Type input));
  set_string typeStrings i s.

Definition ABIEventSignature (e : ethAPIShim) (event : ptr ABIEvent) : M string :=
  ev ← deref event;
  typeStrings ← make_strings (len (Event_Inputs ev));
  range_from (signature_step typeStrings) 0 (elems (Event_Inputs ev));;
  joined ← read_strings typeStrings;
  ret (Sprintf_v_paren_v (Event_RawName ev) (strings_Join joined ",")).

Definition ABIMarshalingToABIRuntime (e : ethAPIShim) (marshalable : ABIMarshaling)
  : M (ptr RuntimeABI * error) :=
  '(b, _) ← call (json_Marshal_ABIMarshaling marshalable);
  '(runtime, err) ← call (json_Unmarshal_RuntimeABI b);
  ret (addr_of runtime, err).

(** The [components] of one argument: nil unless [mArg.Components] is not,
    and then what a JSON round trip turns them into, errors dropped. *)
Definition convert_components (mArg : ABIArgumentMarshaling)
  : M (slice ArgumentMarshaling) :=
  if is_nil (am_Components mArg) then ret None
  else
    '(b, _) ← call (json_Marshal_Components (am_Components mArg));
    '(components, _) ← call (json_Unmarshal_Components b);
    ret components.

(** The body of the loop of [ABIArgumentsMarshalingToABIArguments]: the
    type is assigned before the error is looked at, and an error returns
    [nil, err] from the method. *)
Definition argument_step (arguments : loc) (i : nat) (mArg : ABIArgumentMarshaling)
  : M (option (ABIArguments * error)) :=
  components ← convert_components mArg;
  '(t, err) ← call (abi_NewType (am_Type mArg) (am_InternalType mArg) components);
  update_argument arguments i (set_Type t);;
  match err with
  | Some _ => ret (Some (None, err))
  | None =>
      update_argument arguments i (set_Name (am_Name mArg));;
      update_argument arguments i (set_Indexed (am_Indexed mArg));;
      ret None
  end.

Definition ABIArgumentsMarshalingToABIArguments (e : ethAPIShim)
    (marshalable : slice ABIArgumentMarshaling) : M (ABIArguments * error) :=
  arguments ← make_arguments (len marshalable);
  returned ← range_return_from (argument_step arguments) 0 (elems marshalable);
  match returned with
  | Some r => ret r
  | None =>
      a ← read_arguments arguments;
      ret (Some a, None)
  end.

Definition ABIElementMarshalingToABIEvent (e : ethAPIShim)
    (marshalable : ptr ABIElementMarshaling) : M (ptr ABIEvent * error) :=
  m ← deref marshalable;
  '(inputs, err) ← ABIArgumentsMarshalingToABIArguments e (em_Inputs m);
  match err with
  | None =>
      nEvent ← call (abi_NewEvent (em_Name m) (em_Name m) (em_Anonymous m) inputs);
      ret (addr_of nEvent, None)
  | Some _ => ret (null, err)
  end.

Definition ABIElementMarshalingToABIMethod (e : ethAPIShim)
    (m : ptr ABIElementMarshaling) : M (ptr ABIMethod * error) :=
  m' ← deref m;
  '(inputs, err) ← ABIArgumentsMarshalingToABIArguments e (em_Inputs m');
  match err with
  | None =>
      '(outputs, err) ← ABIArgumentsMarshalingToABIArguments e (em_Outputs m');
      match err with
      | None =>
          nMethod ← call (abi_NewMethod (em_Name m') (em_Name m') abi_Function
                            (em_StateMutability m') (em_Constant m') (em_Payable m')
                            inputs outputs);
          ret (addr_of nMethod, None)
      | Some _ => ret (null, err)
      end
  | Some _ => ret (null, err)
  end.

Definition JSON (e : ethAPIShim) (reader : Reader) : M (ABI * error) :=
  call (abi_JSON reader).

Definition SolidityVersion (e : ethAPIShim) (solc : string) : M (ptr Solidity * error) :=
  call (compiler_SolidityVersion solc).

Definition ParseCombinedJSON (e : ethAPIShim) (combinedJSON : bytes)
    (source languageVersion compilerVersion compilerOptions : string)
  : M (Contracts * error) :=
  call (compiler_ParseCombinedJSON combinedJSON source languageVersion
          compilerVersion compilerOptions).

Definition Dial (e : ethAPIShim) (rawurl : string) : M (ptr RPCClient * error) :=
  call (rpc_Dial rawurl).

Definition NewMethod (e : ethAPIShim) (name rawName : string)
    (funType : ABIFunctionType) (mutability : string) (isConst isPayable : bool)
    (inputs outputs : ABIArguments) : M ABIMethod :=
  call (abi_NewMethod name rawName funType mutability isConst isPayable inputs outputs).

Definition NewTransaction (e : ethAPIShim) (nonce : uint64) (to : Address)
    (amount : ptr BigInt) (gasLimit : uint64) (gasPrice : ptr BigInt) (data : bytes)
  : M (ptr Transaction) :=
  call (types_NewTransaction nonce to amount gasLimit gasPrice data).

Definition NewContractCreation (e : ethAPIShim) (nonce : uint64)
    (amount : ptr BigInt) (gasLimit : uint64) (gasPrice : ptr BigInt) (data : bytes)
  : M (ptr Transaction) :=
  call (types_NewContractCreation nonce amount gasLimit gasPrice data).

Definition NewEIP155Signer (e : ethAPIShim) (chainID : ptr BigInt) : M EIP155Signer :=
  call (types_NewEIP155Signer chainID).

Definition ParseBig256 (e : ethAPIShim) (s : string) : M (ptr BigInt * bool) :=
  call (math_ParseBig256 s).

Definition S256 (e : ethAPIShim) (x : ptr BigInt) : M (ptr BigInt) :=
  call (math_S256 x).

Definition GenerateKey (e : ethAPIShim) : M (ptr PrivateKey * error) :=
  call crypto_GenerateKey.

Definition PubkeyToAddress (e : ethAPIShim) (p : PublicKey) : M Address :=
  call (crypto_PubkeyToAddress p).

Definition FromECDSA (e : ethAPIShim) (priv : ptr PrivateKey) : M bytes :=
  call (crypto_FromECDSA priv).

Definition HexToECDSA (e : ethAPIShim) (hexkey : string) : M (ptr PrivateKey * error) :=
  call (crypto_HexToECDSA hexkey).

Definition NewStream (e : ethAPIShim) (r : Reader) (inputLimit : uint64)
  : M (ptr Stream) :=
  call (rlp_NewStream r inputLimit).

Definition SignTx (e : ethAPIShim) (tx : ptr Transaction) (s : Signer)
    (prv : ptr PrivateKey) : M (ptr Transaction * error) :=
  call (types_SignTx tx s prv).

(** ** The interface

    [type EthAPI interface]: one constructor per method, carrying the
    arguments of a call of it. *)
Inductive EthAPI : Type :=
| api_HexDecode (hex : string)
| api_HexToAddress (hex : string)
| api_BytesToAddress (b : bytes)
| api_IsHexAddress (s : string)
| api_HexToHash (hex : string)
| api_EncodeBig (bigint : ptr BigInt)
| api_FromHex (hex : string)
| api_ABITypeFor (typeName : string)
| api_ABITypeKnown (typeName : string)
| api_NewType (typeName internalType : string)
| api_ABIEventSignature (event : ptr ABIEvent)
| api_ABIMarshalingToABIRuntime (marshalable : ABIMarshaling)
| api_ABIArgumentsMarshalingToABIArguments (marshalable : slice ABIArgumentMarshaling)
| api_ABIElementMarshalingToABIEvent (marshalable : ptr ABIElementMarshaling)
| api_ABIElementMarshalingToABIMethod (m : ptr ABIElementMarshaling)
| api_JSON (reader : Reader)
| api_SolidityVersion (solc : string)
| api_ParseCombinedJSON (combinedJSON : bytes)
    (source languageVersion compilerVersion compilerOptions : string)
| api_Dial (rawurl : string)
| api_NewMethod (name rawName : string) (funType : ABIFunctionType)
    (mutability : string) (isConst isPayable : bool) (inputs outputs : ABIArguments)
| api_NewTransaction (nonce : uint64) (to : Address) (amount : ptr BigInt)
    (gasLimit : uint64) (gasPrice : ptr BigInt) (data : bytes)
| api_NewContractCreation (nonce : uint64) (amount : ptr BigInt)
    (gasLimit : uint64) (gasPrice : ptr BigInt) (data : bytes)
| api_NewEIP155Signer (chainID : ptr BigInt)
| api_ParseBig256 (s : string)
| api_S256 (x : ptr BigInt)
| api_GenerateKey
| api_PubkeyToAddress (p : PublicKey)
| api_FromECDSA (priv : ptr PrivateKey)
| api_HexToECDSA (hexkey : string)
| api_NewStream (r : Reader) (inputLimit : uint64)
| api_SignTx (tx : ptr Transaction) (s : Signer) (prv : ptr PrivateKey).

(** The result type the interface declares for each method. *)
Definition Result (c : EthAPI) : ty :=
  match c with
  | api_HexDecode _ => TPair TBytes TError
  | api_HexToAddress _ => TAddress
  | api_BytesToAddress _ => TAddress
  | api_IsHexAddress _ => TBool
  | api_HexToHash _ => THash
  | api_EncodeBig _ => TString
  | api_FromHex _ => TBytes
  | api_ABITypeFor _ => TPair TType TError
  | api_ABITypeKnown _ => TType
  | api_NewType _ _ => TPair TType TError
  | api_ABIEventSignature _ => TString
  | api_ABIMarshalingToABIRuntime _ => TPair (TPtr TRuntimeABI) TError
  | api_ABIArgumentsMarshalingToABIArguments _ => TPair (TSlice TArgument) TError
  | api_ABIElementMarshalingToABIEvent _ => TPair (TPtr TEvent) TError
  | api_ABIElementMarshalingToABIMethod _ => TPair (TPtr TMethod) TError
  | api_JSON _ => TPair TABI TError
  | api_SolidityVersion _ => TPair (TPtr TSolidity) TError
  | api_ParseCombinedJSON _ _ _ _ _ => TPair TContracts TError
  | api_Dial _ => TPair (TPtr TRPCClient) TError
  | api_NewMethod _ _ _ _ _ _ _ _ => TMethod
  | api_NewTransaction _ _ _ _ _ _ => TPtr TTransaction
  | api_NewContractCreation _ _ _ _ _ => TPtr TTransaction
  | api_NewEIP155Signer _ => TEIP155Signer
  | api_ParseBig256 _ => TPair (TPtr TBigInt) TBool
  | api_S256 _ => TPtr TBigInt
  | api_GenerateKey => TPair (TPtr TPrivateKey) TError
  | api_PubkeyToAddress _ => TAddress
  | api_FromECDSA _ => TBytes
  | api_HexToECDSA _ => TPair (TPtr TPrivateKey) TError
  | api_NewStream _ _ => TPtr TStream
  | api_SignTx _ _ _ => TPair (TPtr TTransaction) TError
  end.

(** Calling a method of the interface on the shim. *)
Definition invoke (e : ethAPIShim) (c : EthAPI) : M (denote (Result c)) :=
  match c return M (denote (Result c)) with
  | api_HexDecode hex => HexDecode e hex
  | api_HexToAddress hex => HexToAddress e hex
  | api_BytesToAddress b => BytesToAddress e b
  | api_IsHexAddress s => IsHexAddress e s
  | api_HexToHash hex => HexToHash e hex
  | api_EncodeBig bigint => EncodeBig e bigint
  | api_FromHex hex => FromHex e hex
  | api_ABITypeFor typeName => ABITypeFor e typeName
  | api_ABITypeKnown typeName => ABITypeKnown e typeName
  | api_NewType typeName internalType => NewType e typeName internalType
  | api_ABIEventSignature event => ABIEventSignature e event
  | api_ABIMarshalingToABIRuntime marshalable => ABIMarshalingToABIRuntime e marshalable
  | api_ABIArgumentsMarshalingToABIArguments marshalable =>
      ABIArgumentsMarshalingToABIArguments e marshalable
  | api_ABIElementMarshalingToABIEvent marshalable =>
      ABIElementMarshalingToABIEvent e marshalable
  | api_ABIElementMarshalingToABIMethod m => ABIElementMarshalingToABIMethod e m
  | api_JSON reader => JSON e reader
  | api_SolidityVersion solc => SolidityVersion e solc
  | api_ParseCombinedJSON combinedJSON source languageVersion compilerVersion
      compilerOptions =>
      ParseCombinedJSON e combinedJSON source languageVersion compilerVersion
        compilerOptions
  | api_Dial rawurl => Dial e rawurl
  | api_NewMethod name rawName funType mutability isConst isPayable inputs outputs =>
      NewMethod e name rawName funType mutability isConst isPayable inputs outputs
  | api_NewTransaction nonce to amount gasLimit gasPrice data =>
      NewTransaction e nonce to amount gasLimit gasPrice data
  | api_NewContractCreation nonce amount gasLimit gasPrice data =>
      NewContractCreation e nonce amount gasLimit gasPrice data
  | api_NewEIP155Signer chainID => NewEIP155Signer e chainID
  | api_ParseBig256 s => ParseBig256 e s
  | api_S256 x => S256 e x
  | api_GenerateKey => GenerateKey e
  | api_PubkeyToAddress p => PubkeyToAddress e p
  | api_FromECDSA priv => FromECDSA e priv
  | api_HexToECDSA hexkey => HexToECDSA e hexkey
  | api_NewStream r inputLimit => NewStream e r inputLimit
  | api_SignTx tx s prv => SignTx e tx s prv
  end.

End Model.

Arguments Ret {GT R} r.
Arguments Panic {GT R}.
Arguments Call {GT R} c k.

Abbreviation loc := nat.
Abbreviation heap := (gmap nat array).

(** The methods of [EthAPI], by name, in the order the interface lists them. *)
Inductive Method : Type :=
| M_HexDecode | M_HexToAddress | M_BytesToAddress | M_IsHexAddress | M_HexToHash
| M_EncodeBig | M_FromHex | M_ABITypeFor | M_ABITypeKnown | M_NewType
| M_ABIEventSignature | M_ABIMarshalingToABIRuntime
| M_ABIArgumentsMarshalingToABIArguments | M_ABIElementMarshalingToABIEvent
| M_ABIElementMarshalingToABIMethod | M_JSON | M_SolidityVersion
| M_ParseCombinedJSON | M_Dial | M_NewMethod | M_NewTransaction
| M_NewContractCreation | M_NewEIP155Signer | M_ParseBig256 | M_S256
| M_GenerateKey | M_PubkeyToAddress | M_FromECDSA | M_HexToECDSA | M_NewStream
| M_SignTx.

#[global] Instance Method_eq_dec : EqDecision Method.
Proof. solve_decision. Defined.

Definition EthAPI_methods : list Method :=
  [ M_HexDecode; M_HexToAddress; M_BytesToAddress; M_IsHexAddress; M_HexToHash;
    M_EncodeBig; M_FromHex; M_ABITypeFor; M_ABITypeKnown; M_NewType;
    M_ABIEventSignature; M_ABIMarshalingToABIRuntime;
    M_ABIArgumentsMarshalingToABIArguments; M_ABIElementMarshalingToABIEvent;
    M_ABIElementMarshalingToABIMethod; M_JSON; M_SolidityVersion;
    M_ParseCombinedJSON; M_Dial; M_NewMethod; M_NewTransaction;
    M_NewContractCreation; M_NewEIP155Signer; M_ParseBig256; M_S256;
    M_GenerateKey; M_PubkeyToAddress; M_FromECDSA; M_HexToECDSA; M_NewStream;
    M_SignTx ].

Definition method_of {GT : GethTypes} (c : EthAPI) : Method :=
  match c with
  | api_HexDecode _ => M_HexDecode
  | api_HexToAddress _ => M_HexToAddress
  | api_BytesToAddress _ => M_BytesToAddress
  | api_IsHexAddress _ => M_IsHexAddress
  | api_HexToHash _ => M_HexToHash
  | api_EncodeBig _ => M_EncodeBig
  | api_FromHex _ => M_FromHex
  | api_ABITypeFor _ => M_ABITypeFor
  | api_ABITypeKnown _ => M_ABITypeKnown
  | api_NewType _ _ => M_NewType
  | api_ABIEventSignature _ => M_ABIEventSignature
  | api_ABIMarshalingToABIRuntime _ => M_ABIMarshalingToABIRuntime
  | api_ABIArgumentsMarshalingToABIArguments _ => M_ABIArgumentsMarshalingToABIArguments
  | api_ABIElementMarshalingToABIEvent _ => M_ABIElementMarshalingToABIEvent
  | api_ABIElementMarshalingToABIMethod _ => M_ABIElementMarshalingToABIMethod
  | api_JSON _ => M_JSON
  | api_SolidityVersion _ => M_SolidityVersion
  | api_ParseCombinedJSON _ _ _ _ _ => M_ParseCombinedJSON
  | api_Dial _ => M_Dial
  | api_NewMethod _ _ _ _ _ _ _ _ => M_NewMethod
  | api_NewTransaction _ _ _ _ _ _ => M_NewTransaction
  | api_NewContractCreation _ _ _ _ _ => M_NewContractCreation
  | api_NewEIP155Signer _ => M_NewEIP155Signer
  | api_ParseBig256 _ => M_ParseBig256
  | api_S256 _ => M_S256
  | api_GenerateKey => M_GenerateKey
  | api_PubkeyToAddress _ => M_PubkeyToAddress
  | api_FromECDSA _ => M_FromECDSA
  | api_HexToECDSA _ => M_HexToECDSA
  | api_NewStream _ _ => M_NewStream
  | api_SignTx _ _ _ => M_SignTx
  end.

(** ** What the loops compute

    Closed forms, as functions of the library's answers, of the two loops
    of the shim: used to state what the methods return. *)
Section ClosedForms.
Context {GT : GethTypes}.
Variable L : Lib.

(** The strings [ABIEventSignature] joins. *)
Definition type_strings (inputs : list ABIArgument) : list string :=
  map (fun input => L (abi_Type_String (arg_Type input))) inputs.

(** The [components] handed to [abi.NewType] for one argument. *)
Definition components_of (mArg : ABIArgumentMarshaling) : slice ArgumentMarshaling :=
  if is_nil (am_Components mArg) then None
  else (L (json_Unmarshal_Components
             (L (json_Marshal_Components (am_Components mArg))).1)).1.

Definition components_log (mArg : ABIArgumentMarshaling) : list (LibCall * error) :=
  if is_nil (am_Components mArg) then []
  else
    let m := json_Marshal_Components (am_Components mArg) in
    let u := json_Unmarshal_Components (L m).1 in
    [(m, (L m).2); (u, (L u).2)].

Definition NewType_of (mArg : ABIArgumentMarshaling) : LibCall :=
  abi_NewType (am_Type mArg) (am_InternalType mArg) (components_of mArg).

(** The array [arguments] after the loop over [l], and the error that
    ended it, if one did. *)
Fixpoint fill_arguments (l : list ABIArgumentMarshaling) : list ABIArgument * error :=
  match l with
  | [] => ([], None)
  | mArg :: l' =>
      let '(t, err) := L (NewType_of mArg) in
      match err with
      | Some _ => (set_Type t zeroArgument :: replicate (length l') zeroArgument, err)
      | None =>
          let '(a, err') := fill_arguments l' in
          (mkArgument (am_Name mArg) t (am_Indexed mArg) :: a, err')
      end
  end.

Fixpoint arguments_log (l : list ABIArgumentMarshaling) : list (LibCall * error) :=
  match l with
  | [] => []
  | mArg :: l' =>
      components_log mArg ++
      (NewType_of mArg, (L (NewType_of mArg)).2) ::
      match (L (NewType_of mArg)).2 with
      | Some _ => []
      | None => arguments_log l'
      end
  end.

(** What [ABIArgumentsMarshalingToABIArguments] returns. *)
Definition arguments_result (marshalable : slice ABIArgumentMarshaling)
  : ABIArguments * error :=
  let '(a, err) := fill_arguments (elems marshalable) in
  match err with
  | Some _ => (None, err)
  | None => (Some a, None)
  end.

(** What [ABIElementMarshalingToABIEvent] returns on [&m], and the calls
    it issues. *)
Definition NewEvent_of (m : ABIElementMarshaling) (inputs : ABIArguments) : LibCall :=
  abi_NewEvent (em_Name m) (em_Name m) (em_Anonymous m) inputs.

Definition event_result (m : ABIElementMarshaling) : ptr ABIEvent * error :=
  let '(inputs, err) := arguments_result (em_Inputs m) in
  match err with
  | None => (addr_of (L (NewEvent_of m inputs)), None)
  | Some _ => (null, err)
  end.

Definition event_log (m : ABIElementMarshaling) : list (LibCall * error) :=
  arguments_log (elems (em_Inputs m)) ++
  let '(inputs, err) := arguments_result (em_Inputs m) in
  match err with
  | None => [(NewEvent_of m inputs, None)]
  | Some _ => []
  end.

(** What [ABIElementMarshalingToABIMethod] returns on [&m], and the calls
    it issues. *)
Definition NewMethod_of (m : ABIElementMarshaling) (inputs outputs : ABIArguments)
  : LibCall :=
  abi_NewMethod (em_Name m) (em_Name m) abi_Function (em_StateMutability m)
    (em_Constant m) (em_Payable m) inputs outputs.

Definition method_result (m : ABIElementMarshaling) : ptr ABIMethod * error :=
  let '(inputs, err) := arguments_result (em_Inputs m) in
  match err with
  | None =>
      let '(outputs, err') := arguments_result (em_Outputs m) in
      match err' with
      | None => (addr_of (L (NewMethod_of m inputs outputs)), None)
      | Some _ => (null, err')
      end
  | Some _ => (null, err)
  end.

Definition method_log (m : ABIElementMarshaling) : list (LibCall * error) :=
  arguments_log (elems (em_Inputs m)) ++
  let '(inputs, err) := arguments_result (em_Inputs m) in
  match err with
  | None =>
      arguments_log (elems (em_Outputs m)) ++
      let '(outputs, err') := arguments_result (em_Outputs m) in
      match err' with
      | None => [(NewMethod_of m inputs outputs, None)]
      | Some _ => []
      end
  | Some _ => []
  end.

End ClosedForms.

(** ** The properties the specification states *)
Section Properties.
Context {GT : GethTypes}.


(** Two results, possibly of different types, carry the same output: the
    parts before their errors have the same type and are equal. *)
Definition same_output {t t' : ty} (r : denote t) (r' : denote t') : Prop :=
  exists H : out_ty t' = out_ty t,
    eq_rect (out_ty t') denote (output_of r') (out_ty t) H = output_of r.

(** The call [c] of the interface returns the output and the error of the
    library call [w], whatever the library answers. *)
Definition answers_as (c : EthAPI) (w : LibCall) : Prop :=
  forall (L : Lib) (e : ethAPIShim) (h : heap),
    exists r h', run L (invoke e c h) = Some (r, h') /\
                 same_output r (L w) /\ error_of r = error_of (L w).

(** Pass-through fidelity of one call of the interface. *)
Definition pass_through (c : EthAPI) : Prop := exists w, answers_as c w.

(** The call [c] of the interface is the single library call [w], whose
    answer it returns as it is. *)
Definition delegates_to (c : EthAPI) (w : LibCall) : Prop :=
  exists H : Answer w = Result c,
    forall (e : ethAPIShim) (h : heap),
      exists k, invoke e c h = Call w k /\
                forall x, k x = Ret (eq_rect (Answer w) denote x (Result c) H, h).

Definition one_line_delegation (c : EthAPI) : Prop := exists w, delegates_to c w.

(** No failure handling in the call [c]: the number of library calls does
    not depend on what the library answers (no error branch, no retry),
    an error the shim returns is one a library call answered (no
    validation of its own), and every error a library call answers is the
    error the shim returns (none suppressed). *)
Definition no_failure_handling (c : EthAPI) : Prop :=
  forall (e : ethAPIShim) (h : heap),
    (forall L L' : Lib, ncalls L (invoke e c h) = ncalls L' (invoke e c h)) /\
    (forall (L : Lib) r h', run L (invoke e c h) = Some (r, h') ->
       (error_of r = None \/ error_of r ∈ (call_log L (invoke e c h)).*2) /\
       Forall (fun ce => ce.2 = None \/ ce.2 = error_of r)
              (call_log L (invoke e c h))).



(** The call [c] returns [r] after the calls [log] from every receiver and
    every heap, and leaves a heap that extends the one it was given. *)
Definition returns_always (L : Lib) (c : EthAPI) (r : denote (Result c))
    (log : list (LibCall * error)) : Prop :=
  forall (e : ethAPIShim) (h : heap),
    exists h' : heap,
      (h ⊆ h') /\ run L (invoke e c h) = Some (r, h') /\
      call_log L (invoke e c h) = log.


(** The contract of [abi.NewType] in go-ethereum: a failing call returns
    [Type{}] next to its error. *)
Definition NewType_zero_on_error (L : Lib) : Prop :=
  forall t internalType components,
    (L (abi_NewType t internalType components)).2 <> None ->
    (L (abi_NewType t internalType components)).1 = zeroType.

(** The library call a forwarding method issues, with the arguments it
    passes; [None] for the methods that convert on their own. *)
Definition forwarded_call (c : EthAPI) : option LibCall :=
  match c with
  | api_HexDecode hex => Some (hexutil_Decode hex)
  | api_HexToAddress hex => Some (common_HexToAddress hex)
  | api_BytesToAddress b => Some (common_BytesToAddress b)
  | api_IsHexAddress s => Some (common_IsHexAddress s)
  | api_HexToHash hex => Some (common_HexToHash hex)
  | api_EncodeBig bigint => Some (hexutil_EncodeBig bigint)
  | api_FromHex hex => Some (common_FromHex hex)
  | api_ABITypeFor typeName => Some (abi_NewType typeName "" (Some []))
  | api_ABITypeKnown _ => None
  | api_NewType typeName internalType =>
      Some (abi_NewType typeName internalType (Some []))
  | api_ABIEventSignature _ => None
  | api_ABIMarshalingToABIRuntime _ => None
  | api_ABIArgumentsMarshalingToABIArguments _ => None
  | api_ABIElementMarshalingToABIEvent _ => None
  | api_ABIElementMarshalingToABIMethod _ => None
  | api_JSON reader => Some (abi_JSON reader)
  | api_SolidityVersion solc => Some (compiler_SolidityVersion solc)
  | api_ParseCombinedJSON combinedJSON source languageVersion compilerVersion
      compilerOptions =>
      Some (compiler_ParseCombinedJSON combinedJSON source languageVersion
              compilerVersion compilerOptions)
  | api_Dial rawurl => Some (rpc_Dial rawurl)
  | api_NewMethod name rawName funType mutability isConst isPayable inputs outputs =>
      Some (abi_NewMethod name rawName funType mutability isConst isPayable
              inputs outputs)
  | api_NewTransaction nonce to amount gasLimit gasPrice data =>
      Some (types_NewTransaction nonce to amount gasLimit gasPrice data)
  | api_NewContractCreation nonce amount gasLimit gasPrice data =>
      Some (types_NewContractCreation nonce amount gasLimit gasPrice data)
  | api_NewEIP155Signer chainID => Some (types_NewEIP155Signer chainID)
  | api_ParseBig256 s => Some (math_ParseBig256 s)
  | api_S256 x => Some (math_S256 x)
  | api_GenerateKey => Some crypto_GenerateKey
  | api_PubkeyToAddress p => Some (crypto_PubkeyToAddress p)
  | api_FromECDSA priv => Some (crypto_FromECDSA priv)
  | api_HexToECDSA hexkey => Some (crypto_HexToECDSA hexkey)
  | api_NewStream r inputLimit => Some (rlp_NewStream r inputLimit)
  | api_SignTx tx s prv => Some (types_SignTx tx s prv)
  end.

(** The pointer argument a call dereferences is nil. *)
Definition derefs_nil (c : EthAPI) : bool :=
  match c with
  | api_ABIEventSignature null
  | api_ABIElementMarshalingToABIEvent null
  | api_ABIElementMarshalingToABIMethod null => true
  | _ => false
  end.

End Properties.

(** The methods that convert on their own instead of forwarding. *)
Definition converts (m : Method) : bool :=
  match m with
  | M_ABITypeKnown | M_ABIEventSignature | M_ABIMarshalingToABIRuntime
  | M_ABIArgumentsMarshalingToABIArguments | M_ABIElementMarshalingToABIEvent
  | M_ABIElementMarshalingToABIMethod => true
  | _ => false
  end.

(** The methods that drop an error or branch on one. *)
Definition handles_failures (m : Method) : bool :=
  match m with
  | M_ABITypeKnown | M_ABIMarshalingToABIRuntime
  | M_ABIArgumentsMarshalingToABIArguments | M_ABIElementMarshalingToABIEvent
  | M_ABIElementMarshalingToABIMethod => true
  | _ => false
  end.


(** The kinds of operation the specification lists, and the methods of
    each kind; the big-integer helpers [ParseBig256] and [S256] are of none
    of them. *)
Inductive Category : Type :=
| HexAddressConversion
| ABITypeConstruction
| SignatureDerivation
| SolidityCompiler
| RPCDialing
| TransactionConstructionAndSigning
| KeyGeneration
| RLPStreamDecoding.

Definition methods_of (k : Category) : list Method :=
  match k with
  | HexAddressConversion =>
      [M_HexDecode; M_HexToAddress; M_BytesToAddress; M_IsHexAddress; M_HexToHash;
       M_EncodeBig; M_FromHex]
  | ABITypeConstruction =>
      [M_ABITypeFor; M_ABITypeKnown; M_NewType; M_ABIMarshalingToABIRuntime;
       M_ABIArgumentsMarshalingToABIArguments; M_JSON]
  | SignatureDerivation =>
      [M_ABIEventSignature; M_ABIElementMarshalingToABIEvent;
       M_ABIElementMarshalingToABIMethod; M_NewMethod]
  | SolidityCompiler => [M_SolidityVersion; M_ParseCombinedJSON]
  | RPCDialing => [M_Dial]
  | TransactionConstructionAndSigning =>
      [M_NewTransaction; M_NewContractCreation; M_NewEIP155Signer; M_SignTx]
  | KeyGeneration => [M_GenerateKey; M_PubkeyToAddress; M_FromECDSA; M_HexToECDSA]
  | RLPStreamDecoding => [M_NewStream]
  end.

Definition all_categories : list Category :=
  [HexAddressConversion; ABITypeConstruction; SignatureDerivation; SolidityCompiler;
   RPCDialing; TransactionConstructionAndSigning; KeyGeneration; RLPStreamDecoding].

(** Forty, to the nearest ten. *)
Definition roughly_forty (n : nat) : Prop := 35 <= n < 45.

(** ** The conversion of arguments, one argument at a time *)
Section Conversion.
Context {GT : GethTypes}.
Variable L : Lib.

(** [abi.NewType] answers no error on the argument [mArg]. *)
Definition NewType_succeeds (mArg : ABIArgumentMarshaling) : Prop :=
  (L (NewType_of L mArg)).2 = None.

(** The [abi.Argument] the loop leaves for [mArg] when [abi.NewType]
    answers no error: the name and the flag of [mArg], and the type the
    library answered. *)
Definition convert_argument (mArg : ABIArgumentMarshaling) : ABIArgument :=
  mkArgument (am_Name mArg) (L (NewType_of L mArg)).1 (am_Indexed mArg).

(** The call of [abi.NewType] for an argument whose [Components] are nil:
    the local [components] is still nil. *)
Definition NewType_without_components (mArg : ABIArgumentMarshaling) : LibCall :=
  abi_NewType (am_Type mArg) (am_InternalType mArg) None.

(** A contract of [abi.NewEvent] in go-ethereum: the event it builds keeps
    the raw name it was given and the types of the inputs, in order. *)
Definition NewEvent_keeps_name_and_types : Prop :=
  forall name rawName anonymous inputs,
    Event_RawName (L (abi_NewEvent name rawName anonymous inputs)) = rawName /\
    map arg_Type (elems (Event_Inputs (L (abi_NewEvent name rawName anonymous inputs)))) =
    map arg_Type (elems inputs).

End Conversion.

(** The library functions each conversion helper calls. *)
Definition helper_calls {GT : GethTypes} (m : Method) (w : LibCall) : bool :=
  match m, w with
  | M_ABITypeKnown, abi_NewType _ _ _ => true
  | M_ABIEventSignature, abi_Type_String _ => true
  | M_ABIMarshalingToABIRuntime, json_Marshal_ABIMarshaling _ => true
  | M_ABIMarshalingToABIRuntime, json_Unmarshal_RuntimeABI _ => true
  | M_ABIArgumentsMarshalingToABIArguments, json_Marshal_Components _ => true
  | M_ABIArgumentsMarshalingToABIArguments, json_Unmarshal_Components _ => true
  | M_ABIArgumentsMarshalingToABIArguments, abi_NewType _ _ _ => true
  | M_ABIElementMarshalingToABIEvent, json_Marshal_Components _ => true
  | M_ABIElementMarshalingToABIEvent, json_Unmarshal_Components _ => true
  | M_ABIElementMarshalingToABIEvent, abi_NewType _ _ _ => true
  | M_ABIElementMarshalingToABIEvent, abi_NewEvent _ _ _ _ => true
  | M_ABIElementMarshalingToABIMethod, json_Marshal_Components _ => true
  | M_ABIElementMarshalingToABIMethod, json_Unmarshal_Components _ => true
  | M_ABIElementMarshalingToABIMethod, abi_NewType _ _ _ => true
  | M_ABIElementMarshalingToABIMethod, abi_NewMethod _ _ _ _ _ _ _ _ => true
  | _, _ => false
  end.

(** ** A concrete instance, for examples

    An ABI type is its name, an error its message; an event keeps what
    [abi.NewEvent] was given.  The library [sample_lib] knows the type
    names below and rejects every other one, as go-ethereum's
    [abi.NewType] rejects an unknown name with a zero [Type] and an
    error. *)
Record SampleEvent : Type := mkSampleEvent {
  se_Name : string;
  se_RawName : string;
  se_Anonymous : bool;
  se_Inputs : slice (Argument string)
}.

Definition SampleTypes : GethTypes := {|
  Err := string;
  Address := string;
  Hash := string;
  BigInt := Z;
  PrivateKey := Z;
  PublicKey := Z;
  Reader := string;
  ABIType := string;
  zeroType := "";
  ArgumentMarshaling := string;
  ABIFunctionType := nat;
  abi_Function := 3;
  ABIEvent := SampleEvent;
  Event_RawName := se_RawName;
  Event_Inputs := se_Inputs;
  ABIMethod := string;
  ABI := string;
  RuntimeABI := string;
  Solidity := string;
  Contracts := list string;
  RPCClient := string;
  Transaction := string;
  Signer := string;
  EIP155Signer := Z;
  Stream := string
|}.

Definition sample_known_types : list string :=
  ["uint256"; "address"; "bool"; "string"; "bytes32"; "tuple"].

Definition sample_NewType (t : string) : string * option string :=
  if bool_decide (t ∈ sample_known_types) then (t, None)
  else ("", Some ("unsupported arg type: " +:+ t)).

Definition sample_lib : @Lib SampleTypes :=
  fun c =>
    match c return @denote SampleTypes (@Answer SampleTypes c) with
    | hexutil_Decode _ => (Some [], None)
    | common_HexToAddress hex => hex
    | common_BytesToAddress _ => "0x00"
    | common_IsHexAddress _ => true
    | common_HexToHash hex => hex
    | hexutil_EncodeBig _ => "0x0"
    | common_FromHex _ => Some []
    | abi_NewType t _ _ => sample_NewType t
    | abi_Type_String t => t
    | abi_NewEvent name rawName anonymous inputs =>
        mkSampleEvent name rawName anonymous inputs
    | abi_NewMethod name _ _ _ _ _ _ _ => name
    | abi_JSON _ => ("abi", None)
    | compiler_SolidityVersion _ => (addr_of "solc", None)
    | compiler_ParseCombinedJSON _ _ _ _ _ => ([], None)
    | rpc_Dial _ => (null, Some "dial: connection refused")
    | types_NewTransaction _ _ _ _ _ _ => addr_of "tx"
    | types_NewContractCreation _ _ _ _ _ => addr_of "tx"
    | types_NewEIP155Signer _ => 1%Z
    | math_ParseBig256 _ => (null, false)
    | math_S256 x => x
    | crypto_GenerateKey => (addr_of 1%Z, None)
    | crypto_PubkeyToAddress _ => "0x00"
    | crypto_FromECDSA _ => Some []
    | crypto_HexToECDSA _ => (null, Some "invalid hex")
    | rlp_NewStream _ _ => addr_of "stream"
    | types_SignTx tx _ _ => (tx, None)
    | json_Marshal_ABIMarshaling _ => (Some [], None)
    | json_Unmarshal_RuntimeABI _ => ("abi", None)
    | json_Marshal_Components _ => (Some [], None)
    | json_Unmarshal_Components _ => (Some [], None)
    end.

(** Variations of a library: another [abi.NewType], another
    [Type.String], an [encoding/json] that fails. *)
Definition with_NewType (f : string -> string * option string)
    (L : @Lib SampleTypes) : @Lib SampleTypes :=
  fun c =>
    match c as c0 return @denote SampleTypes (@Answer SampleTypes c0) with
    | abi_NewType t _ _ => f t
    | c' => L c'
    end.

Definition with_Type_String (f : string -> string)
    (L : @Lib SampleTypes) : @Lib SampleTypes :=
  fun c =>
    match c as c0 return @denote SampleTypes (@Answer SampleTypes c0) with
    | abi_Type_String t => f t
    | c' => L c'
    end.

Definition with_failing_json (L : @Lib SampleTypes) : @Lib SampleTypes :=
  fun c =>
    match c as c0 return @denote SampleTypes (@Answer SampleTypes c0) with
    | json_Marshal_ABIMarshaling _ => (None, Some "json: unsupported value")
    | json_Unmarshal_RuntimeABI _ => ("", Some "unexpected end of JSON input")
    | json_Marshal_Components _ => (None, Some "json: unsupported value")
    | json_Unmarshal_Components _ => (None, Some "unexpected end of JSON input")
    | c' => L c'
    end.

(** A library that knows every type name. *)
Definition permissive_lib : @Lib SampleTypes :=
  with_NewType (fun t => (t, None)) sample_lib.

(** A library whose [Type.String] renders nothing. *)
Definition mute_lib : @Lib SampleTypes :=
  with_Type_String (fun _ => "") sample_lib.

(** A library whose [encoding/json] fails. *)
Definition failing_json_lib : @Lib SampleTypes := with_failing_json sample_lib.

Section SampleInputs.
#[local] Existing Instance SampleTypes.

(** An event with three inputs. *)
Definition Transfer : SampleEvent :=
  mkSampleEvent "Transfer" "Transfer" false
    (Some [mkArgument "from" "address" true; mkArgument "to" "address" true;
           mkArgument "value" "uint256" false]).

Definition sample_ABIEventSignature : EthAPI :=
  api_ABIEventSignature (GT := SampleTypes) (addr_of Transfer).

Definition sample_SignTx : EthAPI :=
  api_SignTx (GT := SampleTypes) (addr_of "tx") "signer" (addr_of 7%Z).

(** Serialized arguments [a uint256, b foo, c bool]: the second type is
    unknown. *)
Definition sample_arguments : slice ABIArgumentMarshaling :=
  Some [mkABIArgumentMarshaling "a" "uint256" "" None false;
        mkABIArgumentMarshaling "b" "foo" "" None true;
        mkABIArgumentMarshaling "c" "bool" "" None false].


(** One sample call of each method, on the sample instance. *)
Definition sample_call (m : Method) : @EthAPI SampleTypes :=
  let GT := SampleTypes in
  match m with
  | M_HexDecode => api_HexDecode "0x1234"
  | M_HexToAddress => api_HexToAddress "0x00"
  | M_BytesToAddress => api_BytesToAddress (Some [])
  | M_IsHexAddress => api_IsHexAddress "0x00"
  | M_HexToHash => api_HexToHash "0x00"
  | M_EncodeBig => api_EncodeBig (addr_of 0%Z)
  | M_FromHex => api_FromHex "0x1234"
  | M_ABITypeFor => api_ABITypeFor "uint256"
  | M_ABITypeKnown => api_ABITypeKnown "uint256"
  | M_NewType => api_NewType "uint256" "uint256"
  | M_ABIEventSignature => api_ABIEventSignature (addr_of Transfer)
  | M_ABIMarshalingToABIRuntime => api_ABIMarshalingToABIRuntime (Some [])
  | M_ABIArgumentsMarshalingToABIArguments =>
      api_ABIArgumentsMarshalingToABIArguments sample_arguments
  | M_ABIElementMarshalingToABIEvent =>
      api_ABIElementMarshalingToABIEvent
        (addr_of (mkABIElementMarshaling "Transfer" false sample_arguments None
                    "" false false))
  | M_ABIElementMarshalingToABIMethod =>
      api_ABIElementMarshalingToABIMethod
        (addr_of (mkABIElementMarshaling "transfer" false sample_arguments None
                    "nonpayable" false false))
  | M_JSON => api_JSON "[]"
  | M_SolidityVersion => api_SolidityVersion "solc"
  | M_ParseCombinedJSON => api_ParseCombinedJSON (Some []) "" "" "" ""
  | M_Dial => api_Dial "http://localhost:8545"
  | M_NewMethod => api_NewMethod "transfer" "transfer" 3 "nonpayable" false false
                     (Some []) (Some [])
  | M_NewTransaction => api_NewTransaction 0%N "0x00" null 21000%N null None
  | M_NewContractCreation => api_NewContractCreation 0%N null 21000%N null None
  | M_NewEIP155Signer => api_NewEIP155Signer (addr_of 1%Z)
  | M_ParseBig256 => api_ParseBig256 "0x10"
  | M_S256 => api_S256 (addr_of 1%Z)
  | M_GenerateKey => api_GenerateKey
  | M_PubkeyToAddress => api_PubkeyToAddress 1%Z
  | M_FromECDSA => api_FromECDSA (addr_of 1%Z)
  | M_HexToECDSA => api_HexToECDSA "00"
  | M_NewStream => api_NewStream "" 0%N
  | M_SignTx => api_SignTx (addr_of "tx") "signer" (addr_of 7%Z)
  end.

End SampleInputs.

(** More sample inputs: serialized arguments of known types, and an
    event and a method in serialized form. *)
Section MoreSampleInputs.
#[local] Existing Instance SampleTypes.

Definition arg_a : ABIArgumentMarshaling :=
  mkABIArgumentMarshaling "a" "uint256" "" None false.
Definition arg_b : ABIArgumentMarshaling :=
  mkABIArgumentMarshaling "b" "foo" "" None true.
Definition arg_c : ABIArgumentMarshaling :=
  mkABIArgumentMarshaling "c" "bool" "" None false.

(** A serialized tuple argument, with its two components. *)
Definition tuple_argument : ABIArgumentMarshaling :=
  mkABIArgumentMarshaling "pair" "tuple" ""
    (Some [mkABIArgumentMarshaling "x" "uint256" "" None false;
           mkABIArgumentMarshaling "y" "bool" "" None false])
    false.

(** Serialized arguments [a uint256, c bool]: both types are known. *)
Definition known_arguments : slice ABIArgumentMarshaling := Some [arg_a; arg_c].

(** The serialized event [Approval(a uint256, c bool)], and the same with
    the fields only a method has filled in. *)
Definition Approval : ABIElementMarshaling :=
  mkABIElementMarshaling "Approval" false known_arguments None "" false false.

Definition Approval' : ABIElementMarshaling :=
  mkABIElementMarshaling "Approval" false known_arguments sample_arguments
    "payable" true true.


Definition approve' : ABIElementMarshaling :=
  mkABIElementMarshaling "approve" true known_arguments (Some [arg_c])
    "nonpayable" false false.


(** The event [Transfer] with other names and flags for its inputs. *)
Definition Transfer' : SampleEvent :=
  mkSampleEvent "Sent" "Transfer" true
    (Some [mkArgument "src" "address" false; mkArgument "dst" "address" false;
           mkArgument "wad" "uint256" false]).

(** What [known_arguments] convert to, and the heap the conversion leaves
    from the empty one. *)
Definition converted_arguments : list (Argument string) :=
  [mkArgument "a" "uint256" false; mkArgument "c" "bool" false].

Definition heap_of_arguments (a : list (Argument string)) : gmap nat (@array SampleTypes) :=
  {[ 0 := ArgumentArray (GT := SampleTypes) a ]}.

End MoreSampleInputs.

(** * Proofs *)

(** ** Running programs *)
Section Semantics.
Context {GT : GethTypes}.
Variable L : Lib.

Lemma run_bind {A B} (m : M A) (f : A -> M B) h :
  run L (bind m f h) =
  match run L (m h) with
  | Some (a, h') => run L (f a h')
  | None => None
  end.
Proof.
  unfold bind. induction (m h) as [[a h']| |c k IH]; simpl; auto.
Qed.

Lemma call_log_bind {A B} (m : M A) (f : A -> M B) h :
  call_log L (bind m f h) =
  call_log L (m h) ++
  match run L (m h) with
  | Some (a, h') => call_log L (f a h')
  | None => []
  end.
Proof.
  unfold bind. induction (m h) as [[a h']| |c k IH]; simpl; auto.
  by rewrite IH.
Qed.

End Semantics.

(** Unfolds the monadic notation and pushes [run] and [call_log] through
    the binds and the library calls of the goal. *)
Ltac step :=
  unfold mbind, M_bind, mret, M_ret;
  repeat (rewrite ?run_bind, ?call_log_bind;
          unfold call, ret, panic, deref, make_strings, make_arguments;
          cbn [run call_log app]).

(** Rewrites with an equation on [run] or [call_log] whose sides are stated
    at a type that is only convertible to the one in the goal. *)
Ltac rew H :=
  match type of H with
  | ?lhs = _ =>
      match goal with
      | |- context [@run ?G ?R ?L' ?p] =>
          let t := constr:(@run G R L' p) in
          unify t lhs; change t with lhs; rewrite H
      | |- context [@call_log ?G ?R ?L' ?p] =>
          let t := constr:(@call_log G R L' p) in
          unify t lhs; change t with lhs; rewrite H
      end
  end.

(** ** [strings.Join] *)
Lemma append_assoc (a b c : string) : (a +:+ b) +:+ c = a +:+ b +:+ c.
Proof.
  induction a as [|ch a IH]; [reflexivity|].
  change (String ch ((a +:+ b) +:+ c) = String ch (a +:+ b +:+ c)).
  by rewrite IH.
Qed.

Lemma append_empty_r (s : string) : s +:+ "" = s.
Proof.
  induction s as [|ch s IH]; [reflexivity|].
  change (String ch (s +:+ "") = String ch s).
  by rewrite IH.
Qed.

Lemma fold_left_join sep (rest : list string) (s : string) :
  fold_left (fun b x => b +:+ sep +:+ x) rest s =
  s +:+ fold_right (fun x acc => sep +:+ x +:+ acc) "" rest.
Proof.
  revert s. induction rest as [|x rest IH]; intros s; cbn [fold_left fold_right].
  - by rewrite append_empty_r.
  - rewrite IH. by rewrite !append_assoc.
Qed.

Lemma concat_cons sep x (rest : list string) :
  String.concat sep (x :: rest) =
  x +:+ fold_right (fun y acc => sep +:+ y +:+ acc) "" rest.
Proof.
  revert x. induction rest as [|y rest IH]; intros x.
  - cbn. by rewrite append_empty_r.
  - change (String.concat sep (x :: y :: rest))
      with (x +:+ sep +:+ String.concat sep (y :: rest)).
    by rewrite IH.
Qed.

(** The builder of [strings.Join] produces the elements separated by
    [sep]. *)
Lemma strings_Join_concat (l : list string) sep :
  strings_Join l sep = String.concat sep l.
Proof.
  destruct l as [|s [|x rest]]; try done.
  unfold strings_Join. rewrite fold_left_join. by rewrite concat_cons.
Qed.

(** ** [ABIEventSignature] *)
Section EventSignature.
Context {GT : GethTypes}.
Variable L : Lib.

(** The loop fills [typeStrings] from index [length pre] on and touches
    no other location. *)
Lemma run_signature_loop (l : loc) (inputs : list ABIArgument) :
  forall (pre suf : list string) (h : heap),
    h !! l = Some (StringArray (pre ++ suf)) ->
    length suf = length inputs ->
    run L (range_from (signature_step l) (length pre) inputs h) =
    Some (tt, <[l := StringArray (pre ++ type_strings L inputs)]> h).
Proof.
  induction inputs as [|x inputs IH]; intros pre suf h Hl Hlen.
  - destruct suf; [|done]. simpl. rewrite insert_id; done.
  - destruct suf as [|z suf]; [done|]. simpl in Hlen.
    cbn [range_from]. step. unfold signature_step at 1. step.
    unfold set_string. rewrite Hl.
    rewrite decide_True by (rewrite length_app; simpl; lia).
    cbn [run].
    rewrite insert_app_r_alt by lia. rewrite Nat.sub_diag. cbn [insert list_insert].
    replace (S (length pre)) with (length (pre ++ [L (abi_Type_String (arg_Type x))]))
      by (rewrite length_app; simpl; lia).
    rewrite (IH _ suf).
    + rewrite insert_insert_eq. cbn [type_strings map]. by rewrite <- app_assoc.
    + rewrite lookup_insert_eq. by rewrite <- app_assoc.
    + lia.
Qed.

(** One call of [Type.String] per input, none of which answers an error. *)
Lemma log_signature_loop (l : loc) (inputs : list ABIArgument) :
  forall (pre suf : list string) (h : heap),
    h !! l = Some (StringArray (pre ++ suf)) ->
    length suf = length inputs ->
    call_log L (range_from (signature_step l) (length pre) inputs h) =
    map (fun input => (abi_Type_String (arg_Type input), None)) inputs.
Proof.
  induction inputs as [|x inputs IH]; intros pre suf h Hl Hlen.
  - done.
  - destruct suf as [|z suf]; [done|]. simpl in Hlen.
    cbn [range_from]. step. unfold signature_step at 1 2. step.
    unfold set_string. rewrite Hl.
    rewrite decide_True by (rewrite length_app; simpl; lia).
    cbn [run call_log app map]. f_equal.
    rewrite insert_app_r_alt by lia. rewrite Nat.sub_diag. cbn [insert list_insert].
    replace (S (length pre)) with (length (pre ++ [L (abi_Type_String (arg_Type x))]))
      by (rewrite length_app; simpl; lia).
    apply (IH _ suf); [|lia].
    rewrite lookup_insert_eq. by rewrite <- app_assoc.
Qed.

Lemma fresh_lookup (h : heap) : h !! fresh (dom h) = None.
Proof. apply not_elem_of_dom, is_fresh. Qed.

(** What [ABIEventSignature] returns on an event, and the heap it leaves:
    the one it was given, plus its own [typeStrings]. *)
Lemma run_ABIEventSignature e (ev : ABIEvent) (h : heap) :
  run L (ABIEventSignature e (addr_of ev) h) =
  Some (Sprintf_v_paren_v (Event_RawName ev)
          (strings_Join (type_strings L (elems (Event_Inputs ev))) ","),
        <[fresh (dom h) := StringArray (type_strings L (elems (Event_Inputs ev)))]> h).
Proof.
  unfold ABIEventSignature. step.
  set (l := fresh (dom h)).
  set (h1 := <[l := _]> h).
  pose proof (run_signature_loop l (elems (Event_Inputs ev)) []
                (replicate (len (Event_Inputs ev)) "") h1) as Hrun.
  cbn [length app] in Hrun. rewrite Hrun.
  - step. unfold read_strings. rewrite lookup_insert_eq. cbn [run app].
    unfold h1. by rewrite insert_insert_eq.
  - unfold h1. by rewrite lookup_insert_eq.
  - by rewrite length_replicate.
Qed.

Lemma log_ABIEventSignature e (ev : ABIEvent) (h : heap) :
  call_log L (ABIEventSignature e (addr_of ev) h) =
  map (fun input => (abi_Type_String (arg_Type input), None))
      (elems (Event_Inputs ev)).
Proof.
  unfold ABIEventSignature. step.
  set (l := fresh (dom h)).
  set (h1 := <[l := _]> h).
  assert (Hl : h1 !! l = Some (StringArray ([] ++ replicate (len (Event_Inputs ev)) "")))
    by (unfold h1; by rewrite lookup_insert_eq).
  assert (Hn : length (replicate (len (Event_Inputs ev)) "") =
               length (elems (Event_Inputs ev)))
    by (by rewrite length_replicate).
  pose proof (run_signature_loop l _ [] _ h1 Hl Hn) as Hrun.
  pose proof (log_signature_loop l _ [] _ h1 Hl Hn) as Hlog.
  cbn [length app] in Hrun, Hlog. rewrite Hrun, Hlog. step.
  unfold read_strings. rewrite lookup_insert_eq. cbn [run call_log app].
  by rewrite !app_nil_r.
Qed.

End EventSignature.

(** ** [ABIArgumentsMarshalingToABIArguments] *)
Section Arguments.
Context {GT : GethTypes}.
Variable L : Lib.

Lemma run_convert_components mArg (h : heap) :
  run L (convert_components mArg h) = Some (components_of L mArg, h).
Proof.
  unfold convert_components, components_of.
  destruct (is_nil (am_Components mArg)); [done|]. step.
  destruct (L (json_Marshal_Components (am_Components mArg))) as [b err1]. step.
  cbn [fst snd].
  by destruct (L (json_Unmarshal_Components b)) as [c err2].
Qed.

Lemma log_convert_components mArg (h : heap) :
  call_log L (convert_components mArg h) = components_log L mArg.
Proof.
  unfold convert_components, components_log.
  destruct (is_nil (am_Components mArg)); [done|]. step.
  destruct (L (json_Marshal_Components (am_Components mArg))) as [b err1] eqn:E1.
  step. cbn [fst snd].
  by destruct (L (json_Unmarshal_Components b)) as [c err2] eqn:E2.
Qed.

Lemma update_argument_at (a : loc) (pre suf : list ABIArgument) x upd (h : heap) :
  h !! a = Some (ArgumentArray (pre ++ x :: suf)) ->
  update_argument a (length pre) upd h =
  Ret (tt, <[a := ArgumentArray (pre ++ upd x :: suf)]> h).
Proof.
  intros Hl. unfold update_argument. rewrite Hl.
  rewrite list_lookup_middle by done.
  rewrite insert_app_r_alt by lia. by rewrite Nat.sub_diag.
Qed.

(** One round of the loop on a zero element: the heap it leaves and
    whether it returns. *)
Lemma run_argument_step (a : loc) mArg (pre suf : list ABIArgument) (h : heap) :
  h !! a = Some (ArgumentArray (pre ++ zeroArgument :: suf)) ->
  run L (argument_step a (length pre) mArg h) =
  let '(t, err) := L (NewType_of L mArg) in
  match err with
  | Some _ =>
      Some (Some (None, err),
            <[a := ArgumentArray (pre ++ set_Type t zeroArgument :: suf)]> h)
  | None =>
      Some (None,
            <[a := ArgumentArray
                     (pre ++ mkArgument (am_Name mArg) t (am_Indexed mArg) :: suf)]> h)
  end.
Proof.
  intros Hl. unfold argument_step. step.
  rewrite run_convert_components. step. fold (NewType_of L mArg).
  destruct (L (NewType_of L mArg)) as [t err]. step.
  rewrite (update_argument_at a pre suf zeroArgument) by done. cbn [run].
  destruct err as [err|]; [done|]. step.
  rewrite (update_argument_at a pre suf (set_Type t zeroArgument))
    by (by rewrite lookup_insert_eq).
  cbn [run]. step.
  rewrite (update_argument_at a pre suf (set_Name (am_Name mArg) (set_Type t zeroArgument)))
    by (by rewrite lookup_insert_eq).
  cbn [run]. by rewrite !insert_insert_eq.
Qed.

Lemma log_argument_step (a : loc) mArg (pre suf : list ABIArgument) (h : heap) :
  h !! a = Some (ArgumentArray (pre ++ zeroArgument :: suf)) ->
  call_log L (argument_step a (length pre) mArg h) =
  components_log L mArg ++ [(NewType_of L mArg, (L (NewType_of L mArg)).2)].
Proof.
  intros Hl. unfold argument_step. step.
  rewrite run_convert_components, log_convert_components. step.
  fold (NewType_of L mArg). f_equal.
  destruct (L (NewType_of L mArg)) as [t err]. step.
  rewrite (update_argument_at a pre suf zeroArgument) by done. cbn [run call_log app].
  destruct err as [err|]; [done|]. step.
  rewrite (update_argument_at a pre suf (set_Type t zeroArgument))
    by (by rewrite lookup_insert_eq).
  cbn [run call_log app]. step.
  rewrite (update_argument_at a pre suf (set_Name (am_Name mArg) (set_Type t zeroArgument)))
    by (by rewrite lookup_insert_eq).
  done.
Qed.

Lemma fill_arguments_length (l : list ABIArgumentMarshaling) :
  length (fill_arguments L l).1 = length l.
Proof.
  induction l as [|mArg l IH]; [done|]. cbn [fill_arguments].
  destruct (L (NewType_of L mArg)) as [t [err|]].
  - cbn. by rewrite length_replicate.
  - destruct (fill_arguments L l) as [a err']. cbn in *. by rewrite IH.
Qed.

(** The loop from index [length pre] on: the array it leaves is the
    closed form, and it returns exactly when a call of [abi.NewType]
    answers an error. *)
Lemma run_arguments_loop (a : loc) (l : list ABIArgumentMarshaling) :
  forall (pre : list ABIArgument) (h : heap),
    h !! a = Some (ArgumentArray (pre ++ replicate (length l) zeroArgument)) ->
    run L (range_return_from (argument_step a) (length pre) l h) =
    Some (match (fill_arguments L l).2 with
          | Some err => Some (None, Some err)
          | None => None
          end,
          <[a := ArgumentArray (pre ++ (fill_arguments L l).1)]> h).
Proof.
  induction l as [|mArg l IH]; intros pre h Hl.
  - cbn. rewrite app_nil_r in *. by rewrite insert_id.
  - cbn [length replicate] in Hl. cbn [range_return_from fill_arguments]. step.
    rewrite (run_argument_step a mArg pre _ h Hl).
    destruct (L (NewType_of L mArg)) as [t [err|]]; [done|].
    set (x := mkArgument (am_Name mArg) t (am_Indexed mArg)).
    replace (S (length pre)) with (length (pre ++ [x]))
      by (rewrite length_app; simpl; lia).
    rewrite IH by (rewrite lookup_insert_eq; by rewrite <- app_assoc).
    destruct (fill_arguments L l) as [a' err']. cbn [fst snd].
    by rewrite insert_insert_eq, <- app_assoc.
Qed.

Lemma log_arguments_loop (a : loc) (l : list ABIArgumentMarshaling) :
  forall (pre : list ABIArgument) (h : heap),
    h !! a = Some (ArgumentArray (pre ++ replicate (length l) zeroArgument)) ->
    call_log L (range_return_from (argument_step a) (length pre) l h) =
    arguments_log L l.
Proof.
  induction l as [|mArg l IH]; intros pre h Hl.
  - done.
  - cbn [length replicate] in Hl. cbn [range_return_from arguments_log]. step.
    rewrite (run_argument_step a mArg pre _ h Hl).
    rewrite (log_argument_step a mArg pre _ h Hl).
    rewrite <- app_assoc. f_equal. cbn [app]. f_equal.
    destruct (L (NewType_of L mArg)) as [t [err|]]; [done|]. cbn [snd].
    set (x := mkArgument (am_Name mArg) t (am_Indexed mArg)).
    replace (S (length pre)) with (length (pre ++ [x]))
      by (rewrite length_app; simpl; lia).
    apply IH. rewrite lookup_insert_eq. by rewrite <- app_assoc.
Qed.

(** What the method returns and the heap it leaves: the one it was
    given, plus its own [arguments]. *)
Lemma run_ABIArguments e (marshalable : slice ABIArgumentMarshaling) (h : heap) :
  run L (ABIArgumentsMarshalingToABIArguments e marshalable h) =
  Some (arguments_result L marshalable,
        <[fresh (dom h) := ArgumentArray (fill_arguments L (elems marshalable)).1]> h).
Proof.
  unfold ABIArgumentsMarshalingToABIArguments, arguments_result. step.
  set (l := fresh (dom h)). set (h1 := <[l := _]> h).
  pose proof (run_arguments_loop l (elems marshalable) [] h1) as Hrun.
  cbn [length app] in Hrun.
  specialize (Hrun ltac:(unfold h1; by rewrite lookup_insert_eq)). rew Hrun.
  destruct (fill_arguments L (elems marshalable)) as [a [err|]]; cbn [fst snd]; step.
  - unfold h1. by rewrite insert_insert_eq.
  - unfold read_arguments. rewrite lookup_insert_eq. cbn [run].
    unfold h1. by rewrite insert_insert_eq.
Qed.

Lemma log_ABIArguments e (marshalable : slice ABIArgumentMarshaling) (h : heap) :
  call_log L (ABIArgumentsMarshalingToABIArguments e marshalable h) =
  arguments_log L (elems marshalable).
Proof.
  unfold ABIArgumentsMarshalingToABIArguments. step.
  set (l := fresh (dom h)). set (h1 := <[l := _]> h).
  assert (Hl : h1 !! l =
               Some (ArgumentArray ([] ++ replicate (length (elems marshalable))
                                             zeroArgument)))
    by (unfold h1; by rewrite lookup_insert_eq).
  pose proof (run_arguments_loop l _ [] h1 Hl) as Hrun.
  pose proof (log_arguments_loop l _ [] h1 Hl) as Hlog.
  cbn [length app] in Hrun, Hlog. rew Hrun. rew Hlog.
  destruct (fill_arguments L (elems marshalable)) as [a [err|]]; cbn [fst snd]; step.
  - by rewrite app_nil_r.
  - unfold read_arguments. rewrite lookup_insert_eq. cbn [run call_log].
    by rewrite app_nil_r.
Qed.

End Arguments.

(** ** [ABIElementMarshalingToABIEvent] and [ABIElementMarshalingToABIMethod] *)
Section Elements.
Context {GT : GethTypes}.
Variable L : Lib.

Lemma run_ABIEvent e (m : ABIElementMarshaling) (h : heap) :
  run L (ABIElementMarshalingToABIEvent e (addr_of m) h) =
  Some (event_result L m,
        <[fresh (dom h) := ArgumentArray (fill_arguments L (elems (em_Inputs m))).1]> h).
Proof.
  unfold ABIElementMarshalingToABIEvent, event_result. step.
  pose proof (run_ABIArguments L e (em_Inputs m) h) as Hrun. rew Hrun.
  destruct (arguments_result L (em_Inputs m)) as [inputs [err|]]; by step.
Qed.

Lemma log_ABIEvent e (m : ABIElementMarshaling) (h : heap) :
  call_log L (ABIElementMarshalingToABIEvent e (addr_of m) h) = event_log L m.
Proof.
  unfold ABIElementMarshalingToABIEvent, event_log. step.
  pose proof (run_ABIArguments L e (em_Inputs m) h) as Hrun. rew Hrun.
  pose proof (log_ABIArguments L e (em_Inputs m) h) as Hlog. rew Hlog.
  f_equal.
  destruct (arguments_result L (em_Inputs m)) as [inputs [err|]]; by step.
Qed.

Lemma run_ABIMethod e (m : ABIElementMarshaling) (h : heap) :
  exists h' : heap,
    (h ⊆ h') /\
    run L (ABIElementMarshalingToABIMethod e (addr_of m) h) =
    Some (method_result L m, h').
Proof.
  unfold ABIElementMarshalingToABIMethod, method_result. step.
  pose proof (run_ABIArguments L e (em_Inputs m) h) as Hrun. rew Hrun.
  set (h1 := <[fresh (dom h) := _]> h).
  assert (h ⊆ h1) by apply insert_subseteq, fresh_lookup.
  destruct (arguments_result L (em_Inputs m)) as [inputs [err|]]; step.
  { by exists h1. }
  pose proof (run_ABIArguments L e (em_Outputs m) h1) as Hrun'. rew Hrun'.
  set (h2 := <[fresh (dom h1) := _]> h1).
  assert (h1 ⊆ h2) by apply insert_subseteq, fresh_lookup.
  exists h2. split; [by etrans|].
  destruct (arguments_result L (em_Outputs m)) as [outputs [err'|]]; by step.
Qed.

Lemma log_ABIMethod e (m : ABIElementMarshaling) (h : heap) :
  call_log L (ABIElementMarshalingToABIMethod e (addr_of m) h) = method_log L m.
Proof.
  unfold ABIElementMarshalingToABIMethod, method_log. step.
  pose proof (run_ABIArguments L e (em_Inputs m) h) as Hrun. rew Hrun.
  pose proof (log_ABIArguments L e (em_Inputs m) h) as Hlog. rew Hlog.
  f_equal.
  destruct (arguments_result L (em_Inputs m)) as [inputs [err|]]; step; [done|].
  set (h1 := <[fresh (dom h) := _]> h).
  pose proof (run_ABIArguments L e (em_Outputs m) h1) as Hrun'. rew Hrun'.
  pose proof (log_ABIArguments L e (em_Outputs m) h1) as Hlog'. rew Hlog'.
  f_equal.
  destruct (arguments_result L (em_Outputs m)) as [outputs [err'|]]; by step.
Qed.

End Elements.

(** ** The forwarding methods *)
Section Forwarding.
Context {GT : GethTypes}.

(** A method forwards exactly when it is not one of the converters. *)
Lemma forwarded_call_converts (c : EthAPI) :
  converts (method_of c) = false <-> is_Some (forwarded_call c).
Proof.
  destruct c; cbn; split; intros H; eauto; try done; by destruct H.
Qed.

(** A forwarding method is the one call of the table, its answer returned
    as it is. *)
Lemma forwarded_call_delegates (c : EthAPI) (w : LibCall) :
  forwarded_call c = Some w -> delegates_to c w.
Proof.
  destruct c; cbn; intros H; try discriminate; injection H as <-;
    exists eq_refl; intros e h; eexists;
    (split; [reflexivity | intros ans; cbn; try destruct ans; reflexivity]).
Qed.

Lemma same_output_refl {t : ty} (r : denote t) : same_output r r.
Proof. by exists eq_refl. Qed.

(** A delegation returns the library's output and error. *)
Lemma delegates_answers (c : EthAPI) (w : LibCall) :
  delegates_to c w -> answers_as c w.
Proof.
  intros [H Hk] L e h. destruct (Hk e h) as [k [Heq Hret]].
  exists (eq_rect (Answer w) denote (L w) (Result c) H), h.
  split; [by rewrite Heq; cbn; rewrite Hret|].
  clear. generalize (L w). revert H. generalize (Result c).
  intros t <- r. cbn. split; [apply same_output_refl | done].
Qed.

(** A delegation makes one library call. *)
Lemma delegates_ncalls (c : EthAPI) (w : LibCall) (L : Lib) e (h : heap) :
  delegates_to c w -> ncalls L (invoke e c h) = 1.
Proof.
  intros [H Hk]. destruct (Hk e h) as [k [Heq Hret]].
  unfold ncalls. rewrite Heq. cbn. by rewrite Hret.
Qed.

End Forwarding.

(** ** Errors and call logs *)
Section Errors.
Context {GT : GethTypes}.











End Errors.

(** * The claims *)

(** ** Pass-through fidelity and delegation *)

(** The six converters, on the sample instance: none of them passes a
    library answer through, none is a delegation. *)
Section Converters.
#[local] Existing Instance SampleTypes.

Lemma sample_NewType_fst_empty (t : string) :
  (sample_NewType t).1 = "" -> (sample_NewType t).2 <> None.
Proof.
  unfold sample_NewType. case_bool_decide as Hin; [|done].
  cbn. intros ->. exfalso. revert Hin. unfold sample_known_types.
  rewrite !elem_of_cons, elem_of_nil. intros [?|[?|[?|[?|[?|[?|[]]]]]]]; discriminate.
Qed.

(** [abi.NewType] is the only library function whose output is a type,
    and on an unknown name it answers an error, which [ABITypeKnown] cannot
    return. *)
Lemma ABITypeKnown_not_pass_through : ~ pass_through (api_ABITypeKnown "foo").
Proof.
  intros [w Hw].
  destruct (Hw sample_lib EthAPIShim ∅) as (r & h' & Hrun & [Heq Hout] & Herr).
  cbn in Hrun. injection Hrun as <- <-.
  destruct w; try discriminate Heq.
  rewrite (proof_irrel Heq eq_refl) in Hout. cbn in Hout, Herr.
  by apply sample_NewType_fst_empty in Hout.
Qed.

(** The signature of [Transfer] is the answer of no library call: with a
    [Type.String] that renders nothing it still has its name and its
    punctuation. *)
Lemma ABIEventSignature_not_pass_through : ~ pass_through sample_ABIEventSignature.
Proof.
  intros [w Hw].
  destruct (Hw mute_lib EthAPIShim ∅) as (r & h' & Hrun & [Heq Hout] & Herr).
  vm_compute in Hrun. injection Hrun as <- <-.
  destruct w; try discriminate Heq;
    rewrite (proof_irrel Heq eq_refl) in Hout; discriminate Hout.
Qed.

(** No library function returns what the four other converters return: a
    pointer to a runtime ABI, to an event or to a method, or a slice of
    arguments. *)
Lemma other_converters_not_pass_through (m : Method) :
  m = M_ABIMarshalingToABIRuntime \/ m = M_ABIArgumentsMarshalingToABIArguments \/
  m = M_ABIElementMarshalingToABIEvent \/ m = M_ABIElementMarshalingToABIMethod ->
  ~ pass_through (sample_call m).
Proof.
  intros Hm [w Hw].
  destruct (Hw sample_lib EthAPIShim ∅) as (r & h' & Hrun & [Heq Hout] & Herr).
  clear Hrun Hout Herr.
  destruct Hm as [-> | [-> | [-> | ->]]]; destruct w; discriminate Heq.
Qed.

(** Each converter has a call that is not a pass-through. *)
Lemma converters_do_not_pass_through (m : Method) :
  converts m = true -> exists c : EthAPI, method_of c = m /\ ~ pass_through c.
Proof.
  destruct m; try discriminate; intros _.
  - exists (api_ABITypeKnown "foo"). split; [done | apply ABITypeKnown_not_pass_through].
  - exists sample_ABIEventSignature.
    split; [done | apply ABIEventSignature_not_pass_through].
  - exists (sample_call M_ABIMarshalingToABIRuntime).
    split; [done | apply other_converters_not_pass_through; auto].
  - exists (sample_call M_ABIArgumentsMarshalingToABIArguments).
    split; [done | apply other_converters_not_pass_through; auto].
  - exists (sample_call M_ABIElementMarshalingToABIEvent).
    split; [done | apply other_converters_not_pass_through; auto].
  - exists (sample_call M_ABIElementMarshalingToABIMethod).
    split; [done | apply other_converters_not_pass_through; auto].
Qed.

(** [ABIEventSignature] makes one library call per input. *)
Lemma ABIEventSignature_not_delegation : ~ one_line_delegation sample_ABIEventSignature.
Proof.
  intros [w Hw].
  pose proof (delegates_ncalls sample_ABIEventSignature w sample_lib EthAPIShim ∅ Hw)
    as Hn.
  vm_compute in Hn. discriminate Hn.
Qed.

(** No converter is a delegation: [ABIEventSignature] makes three calls
    on [Transfer], and no library function has the result type of any of
    the others. *)
Lemma converters_do_not_delegate (m : Method) :
  converts m = true -> ~ one_line_delegation (sample_call m).
Proof.
  destruct m; try discriminate; intros _;
    try (intros [w [Heq _]]; destruct w; discriminate Heq).
  apply ABIEventSignature_not_delegation.
Qed.

End Converters.

(** C1, as amended.  Every method of [EthAPI] other than the six
    converters ([ABITypeKnown], [ABIEventSignature],
    [ABIMarshalingToABIRuntime], [ABIArgumentsMarshalingToABIArguments],
    [ABIElementMarshalingToABIEvent], [ABIElementMarshalingToABIMethod])
    returns, on every input and whatever the library answers, the output
    and the error of the library function it forwards its input to. *)
Theorem forwarding_methods_pass_through {GT : GethTypes} (c : EthAPI) :
  converts (method_of c) = false ->
  exists w, forwarded_call c = Some w /\ answers_as c w.
Proof.
  intros Hc. apply forwarded_call_converts in Hc as [w Hw].
  exists w. split; [done|].
  by apply delegates_answers, forwarded_call_delegates.
Qed.

(** C2, as amended.  Every method of [EthAPI] other than the six
    converters is a single call of the library function of the same or
    nearly the same name, whose answer it returns as it is: it computes
    nothing of its own. *)
Theorem forwarding_methods_delegate {GT : GethTypes} (c : EthAPI) :
  converts (method_of c) = false ->
  exists w, forwarded_call c = Some w /\ delegates_to c w.
Proof.
  intros Hc. apply forwarded_call_converts in Hc as [w Hw].
  exists w. split; [done|]. by apply forwarded_call_delegates.
Qed.

Section Samples.
#[local] Existing Instance SampleTypes.

(** [SignTx] on the sample instance passes [types.SignTx] through. *)
Lemma forwarding_methods_pass_through_witness :
  converts (method_of sample_SignTx) = false /\
  exists w, forwarded_call sample_SignTx = Some w /\ answers_as sample_SignTx w.
Proof.
  split; [reflexivity|].
  apply (forwarding_methods_pass_through sample_SignTx).
  reflexivity.
Defined.

(** [HexDecode] on the sample instance is one call of [hexutil.Decode]. *)
Lemma forwarding_methods_delegate_witness :
  converts (method_of (api_HexDecode "0x1234")) = false /\
  exists w, forwarded_call (api_HexDecode "0x1234") = Some w /\
            delegates_to (api_HexDecode "0x1234") w.
Proof.
  split; [reflexivity|].
  apply (forwarding_methods_delegate (api_HexDecode "0x1234")).
  reflexivity.
Defined.

(** C1 fails on the code: [ABITypeKnown "foo"] returns the zero type and
    no error, while the [abi.NewType] call it makes answers an error; no
    library call has, under every library, the output and error that
    [ABITypeKnown "foo"] returns. *)
Lemma ABITypeKnown_drops_the_error :
  run sample_lib (invoke EthAPIShim (api_ABITypeKnown "foo") ∅) = Some ("", ∅) /\
  sample_lib (abi_NewType "foo" "" (Some [])) = ("", Some "unsupported arg type: foo") /\
  ~ pass_through (api_ABITypeKnown "foo").
Proof.
  split; [reflexivity|]. split; [reflexivity|].
  apply ABITypeKnown_not_pass_through.
Qed.

(** C2 fails on the code: [ABIEventSignature] on an event with three
    inputs calls [Type.String] three times and assembles the signature
    itself. *)
Lemma ABIEventSignature_computes_locally :
  call_log sample_lib (invoke EthAPIShim sample_ABIEventSignature ∅) =
    [(abi_Type_String "address", None); (abi_Type_String "address", None);
     (abi_Type_String "uint256", None)] /\
  run sample_lib (invoke EthAPIShim sample_ABIEventSignature ∅) =
    Some ("Transfer(address,address,uint256)",
          {[ 0 := StringArray ["address"; "address"; "uint256"] ]}) /\
  ~ one_line_delegation sample_ABIEventSignature.
Proof.
  split; [reflexivity|]. split; [by vm_compute|].
  apply ABIEventSignature_not_delegation.
Qed.

End Samples.

(** ** Failure handling *)
Section FailureHandling.
Context {GT : GethTypes}.




End FailureHandling.

(** The five methods that handle failures, on the sample instance. *)
Section FailureHandlers.
#[local] Existing Instance SampleTypes.

(** [ABITypeKnown] suppresses the error of [abi.NewType]. *)
Lemma ABITypeKnown_handles_failure : ~ no_failure_handling (api_ABITypeKnown "foo").
Proof.
  intros Hno. destruct (Hno EthAPIShim ∅) as [_ Hs].
  destruct (Hs sample_lib "" ∅ eq_refl) as [_ Hall].
  apply Forall_cons in Hall as [[Hnil|Hsame] _]; discriminate.
Qed.

(** [ABIMarshalingToABIRuntime] suppresses the error of [json.Marshal]:
    the error it returns is the one of [json.Unmarshal]. *)
Lemma ABIMarshalingToABIRuntime_handles_failure :
  ~ no_failure_handling (sample_call M_ABIMarshalingToABIRuntime).
Proof.
  intros Hno. destruct (Hno EthAPIShim ∅) as [_ Hs].
  destruct (Hs failing_json_lib (addr_of "", Some "unexpected end of JSON input") ∅
              eq_refl) as [_ Hall].
  apply Forall_cons in Hall as [[Hnil|Hsame] _]; discriminate.
Qed.

(** The three methods that loop over [abi.NewType] stop at its first
    error: on [sample_arguments] they make two library calls when the
    second type is rejected, and four or three when it is accepted. *)
Lemma loops_handle_failure (m : Method) :
  m = M_ABIArgumentsMarshalingToABIArguments \/ m = M_ABIElementMarshalingToABIEvent \/
  m = M_ABIElementMarshalingToABIMethod ->
  ~ no_failure_handling (sample_call m).
Proof.
  intros Hm Hno. destruct (Hno EthAPIShim ∅) as [Hn _].
  specialize (Hn sample_lib permissive_lib).
  destruct Hm as [-> | [-> | ->]]; vm_compute in Hn; discriminate Hn.
Qed.

(** Each of the five has a call on which it handles a failure. *)
Lemma failure_handlers_handle_failures (m : Method) :
  handles_failures m = true ->
  exists c : EthAPI, method_of c = m /\ ~ no_failure_handling c.
Proof.
  destruct m; try discriminate; intros _.
  - exists (api_ABITypeKnown "foo"). split; [done | apply ABITypeKnown_handles_failure].
  - exists (sample_call M_ABIMarshalingToABIRuntime).
    split; [done | apply ABIMarshalingToABIRuntime_handles_failure].
  - exists (sample_call M_ABIArgumentsMarshalingToABIArguments).
    split; [done | apply loops_handle_failure; auto].
  - exists (sample_call M_ABIElementMarshalingToABIEvent).
    split; [done | apply loops_handle_failure; auto].
  - exists (sample_call M_ABIElementMarshalingToABIMethod).
    split; [done | apply loops_handle_failure; auto].
Qed.

End FailureHandlers.



Section SamplesOfFailureHandling.
#[local] Existing Instance SampleTypes.





(** The error branch of [ABIArgumentsMarshalingToABIArguments]: the loop
    stops at the first type [abi.NewType] rejects, and the method returns
    nil and that error. *)
Example ABIArguments_stops_at_the_first_error :
  call_log sample_lib
    (invoke EthAPIShim (api_ABIArgumentsMarshalingToABIArguments sample_arguments) ∅) =
    [(abi_NewType "uint256" "" None, None);
     (abi_NewType "foo" "" None, Some "unsupported arg type: foo")] /\
  fst <$> run sample_lib
    (invoke EthAPIShim (api_ABIArgumentsMarshalingToABIArguments sample_arguments) ∅) =
    Some (None, Some "unsupported arg type: foo").
Proof. split; [reflexivity | by vm_compute]. Qed.

(** The errors of [encoding/json] are the ones the shim drops: when
    [json.Marshal] fails, [ABIMarshalingToABIRuntime] goes on and returns
    the error of [json.Unmarshal]. *)
Example ABIMarshalingToABIRuntime_returns_the_Unmarshal_error :
  call_log failing_json_lib
    (invoke EthAPIShim (sample_call M_ABIMarshalingToABIRuntime) ∅) =
    [(json_Marshal_ABIMarshaling (Some []), Some "json: unsupported value");
     (json_Unmarshal_RuntimeABI None, Some "unexpected end of JSON input")] /\
  run failing_json_lib
    (invoke EthAPIShim (sample_call M_ABIMarshalingToABIRuntime) ∅) =
    Some (addr_of "", Some "unexpected end of JSON input", ∅).
Proof. by split. Qed.

End SamplesOfFailureHandling.

(** ** State and memory *)
Section Frame.
Context {GT : GethTypes}.
Variable L : Lib.

Lemma delegates_returns_always (c : EthAPI) (w : LibCall) :
  delegates_to c w -> exists r log, returns_always L c r log.
Proof.
  intros [H Hk]. exists (eq_rect (Answer w) denote (L w) (Result c) H).
  exists [(w, error_of (L w))]. intros e h. exists h.
  destruct (Hk e h) as [k [-> Hret]]. cbn. by rewrite Hret.
Qed.

Lemma ABITypeKnown_returns_always typeName :
  exists r log, returns_always L (api_ABITypeKnown typeName) r log.
Proof.
  exists (L (abi_NewType typeName "" (Some []))).1.
  exists [(abi_NewType typeName "" (Some []),
           (L (abi_NewType typeName "" (Some []))).2)].
  intros e h. exists h. cbn [invoke]. unfold ABITypeKnown. step.
  by destruct (L (abi_NewType typeName "" (Some []))) as [t err].
Qed.

Lemma ABIEventSignature_returns_always (ev : ABIEvent) :
  exists r log, returns_always L (api_ABIEventSignature (addr_of ev)) r log.
Proof.
  eexists _, _. intros e h. eexists. cbn [invoke].
  rewrite run_ABIEventSignature, log_ABIEventSignature.
  split; [apply insert_subseteq, fresh_lookup | done].
Qed.

Lemma ABIMarshalingToABIRuntime_returns_always marshalable :
  exists r log, returns_always L (api_ABIMarshalingToABIRuntime marshalable) r log.
Proof.
  destruct (L (json_Marshal_ABIMarshaling marshalable)) as [b err1] eqn:E1.
  destruct (L (json_Unmarshal_RuntimeABI b)) as [runtime err2] eqn:E2.
  exists (addr_of runtime, err2).
  exists [(json_Marshal_ABIMarshaling marshalable, err1);
          (json_Unmarshal_RuntimeABI b, err2)].
  intros e h. exists h. cbn [invoke]. unfold ABIMarshalingToABIRuntime. step.
  rewrite E1. step. by rewrite E2.
Qed.

Lemma ABIArguments_returns_always marshalable :
  exists r log,
    returns_always L (api_ABIArgumentsMarshalingToABIArguments marshalable) r log.
Proof.
  exists (arguments_result L marshalable), (arguments_log L (elems marshalable)).
  intros e h. eexists. cbn [invoke].
  pose proof (run_ABIArguments L e marshalable h) as Hrun. rew Hrun.
  pose proof (log_ABIArguments L e marshalable h) as Hlog. rew Hlog.
  split; [apply insert_subseteq, fresh_lookup | done].
Qed.

Lemma ABIEvent_returns_always (m : ABIElementMarshaling) :
  exists r log, returns_always L (api_ABIElementMarshalingToABIEvent (addr_of m)) r log.
Proof.
  exists (event_result L m), (event_log L m).
  intros e h. eexists. cbn [invoke].
  pose proof (run_ABIEvent L e m h) as Hrun. rew Hrun.
  pose proof (log_ABIEvent L e m h) as Hlog. rew Hlog.
  split; [apply insert_subseteq, fresh_lookup | done].
Qed.

Lemma ABIMethod_returns_always (m : ABIElementMarshaling) :
  exists r log, returns_always L (api_ABIElementMarshalingToABIMethod (addr_of m)) r log.
Proof.
  exists (method_result L m), (method_log L m).
  intros e h. destruct (run_ABIMethod L e m h) as (h' & Hsub & Hrun).
  exists h'. cbn [invoke]. rew Hrun.
  pose proof (log_ABIMethod L e m h) as Hlog. rew Hlog. done.
Qed.

(** A call that dereferences a nil pointer panics before any library
    call. *)
Lemma derefs_nil_panics (c : EthAPI) e (h : heap) :
  derefs_nil c = true ->
  run L (invoke e c h) = None /\ call_log L (invoke e c h) = [].
Proof.
  destruct c as [| | | | | | | | | |[|ev]| | |[|m]|[|m]| | | | | | | | | | | | | | | |];
    try discriminate; done.
Qed.

Lemma invoke_returns_always (c : EthAPI) :
  derefs_nil c = false -> exists r log, returns_always L c r log.
Proof.
  intros Hnil. destruct (forwarded_call c) as [w|] eqn:Hw.
  { by eapply delegates_returns_always, forwarded_call_delegates. }
  destruct c as [| | | | | | | | | |[|ev]| | |[|m]|[|m]| | | | | | | | | | | | | | | |];
    try discriminate.
  - apply ABITypeKnown_returns_always.
  - apply ABIEventSignature_returns_always.
  - apply ABIMarshalingToABIRuntime_returns_always.
  - apply ABIArguments_returns_always.
  - apply ABIEvent_returns_always.
  - apply ABIMethod_returns_always.
Qed.

End Frame.


(** ** The interface *)

(** C6, as amended.  The interface [EthAPI] has thirty-one methods, each
    listed once, and every kind of operation the specification names
    (hex and address conversion, ABI type construction, signature
    derivation, Solidity compiler invocation, RPC dialing, transaction
    construction and signing, key generation, RLP stream decoding) has
    at least one of them. *)
Theorem EthAPI_has_thirty_one_methods :
  length EthAPI_methods = 31 /\
  NoDup EthAPI_methods /\
  (forall m : Method, m ∈ EthAPI_methods /\ method_of (sample_call m) = m) /\
  (forall k : Category, exists m, m ∈ methods_of k /\ m ∈ EthAPI_methods).
Proof.
  split; [reflexivity|]. split; [by apply (bool_decide_unpack _)|]. split.
  - intros m. split; [|by destruct m].
    destruct m; by apply (bool_decide_unpack _).
  - intros k. destruct k; eexists; (split; [by left | by apply (bool_decide_unpack _)]).
Qed.

(** C6 fails on the code: thirty-one is not forty to the nearest ten. *)
Lemma EthAPI_has_not_forty_methods :
  length EthAPI_methods = 31 /\ ~ roughly_forty (length EthAPI_methods).
Proof.
  split; [reflexivity|]. unfold roughly_forty. cbn. lia.
Qed.

(** ** The conversion helpers *)

(** C7.  On an event with [n] inputs, [ABIEventSignature] returns the raw
    name, an opening parenthesis, the [n] renderings of the input types
    separated by commas, and a closing parenthesis; with no input, the raw
    name followed by ["()"]. *)
Theorem ABIEventSignature_is_name_and_types {GT : GethTypes}
    (L : Lib) (e : ethAPIShim) (ev : ABIEvent) (h : heap) :
  let rendered := type_strings L (elems (Event_Inputs ev)) in
  length rendered = len (Event_Inputs ev) /\
  exists h' : heap,
    run L (ABIEventSignature e (addr_of ev) h) =
      Some (Event_RawName ev +:+ "(" +:+ String.concat "," rendered +:+ ")", h') /\
    (len (Event_Inputs ev) = 0 ->
     run L (ABIEventSignature e (addr_of ev) h) = Some (Event_RawName ev +:+ "()", h')).
Proof.
  intros rendered. split; [apply length_map|].
  eexists. rewrite run_ABIEventSignature, strings_Join_concat.
  split; [reflexivity|]. intros Hn.
  unfold len in Hn. apply length_zero_iff_nil in Hn.
  unfold rendered. rewrite Hn. reflexivity.
Qed.

(** C8.  [ABIMarshalingToABIRuntime] always returns, and the pointer it
    returns is never nil, whether the error next to it is nil or not. *)
Theorem ABIMarshalingToABIRuntime_returns_a_pointer {GT : GethTypes}
    (L : Lib) (e : ethAPIShim) (marshalable : ABIMarshaling) (h : heap) :
  exists (runtime : RuntimeABI) (err : error),
    run L (ABIMarshalingToABIRuntime e marshalable h) = Some (addr_of runtime, err, h) /\
    err = (L (json_Unmarshal_RuntimeABI
                (L (json_Marshal_ABIMarshaling marshalable)).1)).2.
Proof.
  unfold ABIMarshalingToABIRuntime.
  destruct (L (json_Marshal_ABIMarshaling marshalable)) as [b err1] eqn:E1.
  destruct (L (json_Unmarshal_RuntimeABI b)) as [runtime err2] eqn:E2.
  exists runtime, err2. step. rewrite E1. step. rewrite E2. step.
  split; [done|]. cbn [fst]. by rewrite E2.
Qed.

(** [ABITypeKnown] returns the type that [ABITypeFor] returns, whatever
    the error next to it, after the same single call of [abi.NewType]. *)
Lemma ABITypeKnown_returns_the_type_of_ABITypeFor {GT : GethTypes}
    (L : Lib) (e : ethAPIShim) (typeName : string) (h : heap) :
  let w := abi_NewType typeName "" (Some []) in
  run L (ABITypeFor e typeName h) = Some (L w, h) /\
  run L (ABITypeKnown e typeName h) = Some ((L w).1, h) /\
  call_log L (ABITypeFor e typeName h) = [(w, (L w).2)] /\
  call_log L (ABITypeKnown e typeName h) = [(w, (L w).2)].
Proof.
  intros w. unfold ABITypeFor, ABITypeKnown. step. fold w.
  by destruct (L w) as [t err].
Qed.

(** C9.  [ABITypeFor] and [ABITypeKnown] make the same call,
    [abi.NewType] with an empty internal type and empty components.  Where
    [ABITypeFor] returns no error, [ABITypeKnown] returns the same type;
    where it returns an error, [ABITypeKnown] returns, without the error,
    the zero type that [abi.NewType] returns next to an error. *)
Theorem ABITypeKnown_agrees_with_ABITypeFor {GT : GethTypes}
    (L : Lib) (e : ethAPIShim) (typeName : string) (h : heap) :
  NewType_zero_on_error L ->
  call_log L (ABITypeFor e typeName h) = call_log L (ABITypeKnown e typeName h) /\
  (call_log L (ABITypeKnown e typeName h)).*1 = [abi_NewType typeName "" (Some [])] /\
  exists (t : ABIType) (err : error),
    run L (ABITypeFor e typeName h) = Some (t, err, h) /\
    (err = None -> run L (ABITypeKnown e typeName h) = Some (t, h)) /\
    (err <> None -> run L (ABITypeKnown e typeName h) = Some (zeroType, h)).
Proof.
  intros Hzero.
  destruct (ABITypeKnown_returns_the_type_of_ABITypeFor L e typeName h)
    as (Hfor & Hknown & Hlogfor & Hlogknown).
  cbv zeta in *. specialize (Hzero typeName "" (Some [])).
  rewrite Hfor, Hknown, Hlogfor, Hlogknown.
  destruct (L (abi_NewType typeName "" (Some []))) as [t err]; cbn [fst snd] in *.
  split; [done|]. split; [done|]. exists t, err.
  split; [done|]. split; [done|].
  intros Herr. by rewrite (Hzero Herr).
Qed.

Section SamplesOfConversion.
#[local] Existing Instance SampleTypes.

Lemma sample_lib_NewType_zero_on_error : NewType_zero_on_error sample_lib.
Proof.
  intros t internalType components. cbn. unfold sample_NewType.
  by case_bool_decide.
Qed.

(** On the unknown type ["foo"], [ABITypeFor] returns the zero type and
    the error, [ABITypeKnown] the zero type alone. *)
Lemma ABITypeKnown_agrees_with_ABITypeFor_witness :
  NewType_zero_on_error sample_lib /\
  call_log sample_lib (ABITypeFor EthAPIShim "foo" ∅) =
    call_log sample_lib (ABITypeKnown EthAPIShim "foo" ∅) /\
  (call_log sample_lib (ABITypeKnown EthAPIShim "foo" ∅)).*1 =
    [abi_NewType "foo" "" (Some [])] /\
  exists (t : ABIType) (err : error),
    run sample_lib (ABITypeFor EthAPIShim "foo" ∅) = Some (t, err, ∅) /\
    (err = None -> run sample_lib (ABITypeKnown EthAPIShim "foo" ∅) = Some (t, ∅)) /\
    (err <> None ->
     run sample_lib (ABITypeKnown EthAPIShim "foo" ∅) = Some (zeroType, ∅)).
Proof.
  split; [exact sample_lib_NewType_zero_on_error|].
  exact (ABITypeKnown_agrees_with_ABITypeFor sample_lib EthAPIShim "foo" ∅
           sample_lib_NewType_zero_on_error).
Defined.

(** On a failing [encoding/json] the pointer [ABIMarshalingToABIRuntime]
    returns is still the address of its local. *)
Example ABIMarshalingToABIRuntime_pointer_with_error :
  exists (runtime : RuntimeABI) (msg : string),
    run failing_json_lib (ABIMarshalingToABIRuntime EthAPIShim (Some []) ∅) =
    Some (addr_of runtime, Some msg, ∅).
Proof. by eexists _, _. Qed.

End SamplesOfConversion.

(** * Further properties of the conversion helpers *)

(** ** The loop of [ABIArgumentsMarshalingToABIArguments], argument by
    argument *)
Section ArgumentByArgument.
Context {GT : GethTypes}.
Variable L : Lib.

Lemma fill_arguments_app (l1 l2 : list ABIArgumentMarshaling) :
  Forall (NewType_succeeds L) l1 ->
  fill_arguments L (l1 ++ l2) =
  (map (convert_argument L) l1 ++ (fill_arguments L l2).1, (fill_arguments L l2).2).
Proof.
  induction 1 as [|mArg l1 Hok _ IH]; cbn [app map fill_arguments].
  - by destruct (fill_arguments L l2).
  - unfold NewType_succeeds in Hok. unfold convert_argument.
    destruct (L (NewType_of L mArg)) as [t err]. cbn [fst snd] in *. subst err.
    by rewrite IH.
Qed.

Lemma fill_arguments_all (l : list ABIArgumentMarshaling) :
  Forall (NewType_succeeds L) l ->
  fill_arguments L l = (map (convert_argument L) l, None).
Proof.
  intros Hok. pose proof (fill_arguments_app l [] Hok) as H.
  by rewrite !app_nil_r in H.
Qed.

Lemma fill_arguments_fails mArg (post : list ABIArgumentMarshaling) err :
  (L (NewType_of L mArg)).2 = Some err ->
  (fill_arguments L (mArg :: post)).2 = Some err.
Proof.
  intros Herr. cbn [fill_arguments].
  destruct (L (NewType_of L mArg)) as [t err']. cbn [snd] in Herr. by subst err'.
Qed.

Lemma fill_arguments_succeeds (l : list ABIArgumentMarshaling) :
  (fill_arguments L l).2 = None <-> Forall (NewType_succeeds L) l.
Proof.
  split.
  - induction l as [|mArg l IH]; [constructor|]. cbn [fill_arguments].
    destruct (L (NewType_of L mArg)) as [t [err|]] eqn:Ht; [done|].
    destruct (fill_arguments L l) as [a err']. cbn [snd] in *. intros ->.
    constructor; [|by apply IH]. unfold NewType_succeeds. by rewrite Ht.
  - intros Hok. by rewrite fill_arguments_all.
Qed.

Lemma arguments_log_app (l1 l2 : list ABIArgumentMarshaling) :
  Forall (NewType_succeeds L) l1 ->
  arguments_log L (l1 ++ l2) = arguments_log L l1 ++ arguments_log L l2.
Proof.
  induction 1 as [|mArg l1 Hok _ IH]; cbn [app arguments_log]; [done|].
  unfold NewType_succeeds in Hok. rewrite Hok, IH.
  by rewrite <- app_assoc.
Qed.

Lemma arguments_log_fails mArg (post : list ABIArgumentMarshaling) err :
  (L (NewType_of L mArg)).2 = Some err ->
  arguments_log L (mArg :: post) = arguments_log L [mArg].
Proof. intros Herr. cbn [arguments_log]. by rewrite Herr. Qed.

(** The result as a function of the error the loop ended with. *)
Lemma arguments_result_for (marshalable : slice ABIArgumentMarshaling) :
  arguments_result L marshalable =
  match (fill_arguments L (elems marshalable)).2 with
  | Some err => (None, Some err)
  | None => (Some (fill_arguments L (elems marshalable)).1, None)
  end.
Proof.
  unfold arguments_result.
  by destruct (fill_arguments L (elems marshalable)) as [a [err|]].
Qed.

(** What a run of the method tells about the closed form. *)
Lemma run_ABIArguments_inv e marshalable (h : heap) r (h' : heap) :
  run L (ABIArgumentsMarshalingToABIArguments e marshalable h) = Some (r, h') ->
  r = arguments_result L marshalable.
Proof.
  intros Hrun. pose proof (run_ABIArguments L e marshalable h) as Hrun'.
  pose proof (eq_trans (eq_sym Hrun) Hrun') as Heq. by injection Heq.
Qed.

(** The calls the loop makes are calls of [encoding/json] on components
    and of [abi.NewType]. *)
Lemma arguments_log_calls (l : list ABIArgumentMarshaling) (w : LibCall) :
  w ∈ (arguments_log L l).*1 ->
  helper_calls M_ABIArgumentsMarshalingToABIArguments w = true.
Proof.
  induction l as [|mArg l IH]; cbn [arguments_log]; [by intros ?%elem_of_nil|].
  rewrite fmap_app, elem_of_app, fmap_cons, elem_of_cons. intros [Hw|[->|Hw]].
  - unfold components_log in Hw. destruct (is_nil (am_Components mArg)).
    + by apply elem_of_nil in Hw.
    + cbn in Hw. by apply elem_of_cons in Hw as [->|[->|?%elem_of_nil]%elem_of_cons].
  - done.
  - destruct ((L (NewType_of L mArg)).2); [by apply elem_of_nil in Hw|by apply IH].
Qed.

End ArgumentByArgument.

(** ** [ABIArgumentsMarshalingToABIArguments] *)

(** The slice [ABIArgumentsMarshalingToABIArguments] returns is nil exactly
    when the error next to it is not: a caller gets a slice or an error,
    never both and never neither (a nil input gives an empty slice that is
    not nil). *)
Theorem ABIArguments_nil_exactly_on_error {GT : GethTypes}
    (L : Lib) (e : ethAPIShim) (marshalable : slice ABIArgumentMarshaling) (h : heap) :
  exists (arguments : ABIArguments) (err : error) (h' : heap),
    run L (ABIArgumentsMarshalingToABIArguments e marshalable h) =
      Some (arguments, err, h') /\
    (is_nil arguments = true <-> err <> None).
Proof.
  pose proof (run_ABIArguments L e marshalable h) as Hrun.
  rewrite arguments_result_for in Hrun.
  destruct ((fill_arguments L (elems marshalable)).2) as [err|];
    eexists _, _, _; (split; [exact Hrun|]); cbn; split; done.
Qed.

(** [ABIArgumentsMarshalingToABIArguments] returns no error exactly when
    [abi.NewType] answers none for any of the arguments. *)
Theorem ABIArguments_succeeds_iff_NewType_does {GT : GethTypes}
    (L : Lib) (e : ethAPIShim) (marshalable : slice ABIArgumentMarshaling) (h : heap) :
  exists (arguments : ABIArguments) (err : error) (h' : heap),
    run L (ABIArgumentsMarshalingToABIArguments e marshalable h) =
      Some (arguments, err, h') /\
    (err = None <-> Forall (NewType_succeeds L) (elems marshalable)).
Proof.
  pose proof (run_ABIArguments L e marshalable h) as Hrun.
  rewrite arguments_result_for in Hrun.
  pose proof (fill_arguments_succeeds L (elems marshalable)) as Hiff.
  destruct ((fill_arguments L (elems marshalable)).2) as [err|];
    eexists _, _, _; (split; [exact Hrun|]); done.
Qed.

(** When [ABIArgumentsMarshalingToABIArguments] returns no error, the slice
    it returns has one argument for each serialized one, in the same
    order: the name and the indexed flag are copied, and the type is the
    one [abi.NewType] answered for it. *)
Theorem ABIArguments_converts_argument_by_argument {GT : GethTypes}
    (L : Lib) (e : ethAPIShim) (marshalable : slice ABIArgumentMarshaling)
    (h h' : heap) (arguments : ABIArguments) :
  run L (ABIArgumentsMarshalingToABIArguments e marshalable h) =
    Some (arguments, None, h') ->
  arguments = Some (map (convert_argument L) (elems marshalable)) /\
  len arguments = len marshalable.
Proof.
  intros Hrun%run_ABIArguments_inv. rewrite arguments_result_for in Hrun.
  destruct ((fill_arguments L (elems marshalable)).2) as [err|] eqn:Herr; [done|].
  apply fill_arguments_succeeds in Herr.
  rewrite (fill_arguments_all L _ Herr) in Hrun. cbn [fst] in Hrun.
  injection Hrun as ->. split; [done|]. unfold len. cbn [elems]. apply length_map.
Qed.

(** [ABIArgumentsMarshalingToABIArguments] returns nil and the error of the
    first argument for which [abi.NewType] answers one, and makes no
    library call for the arguments that follow it. *)
Theorem ABIArguments_returns_the_first_error {GT : GethTypes}
    (L : Lib) (e : ethAPIShim) (pre post : list ABIArgumentMarshaling)
    (mArg : ABIArgumentMarshaling) (err : Err) (h : heap) :
  Forall (NewType_succeeds L) pre ->
  (L (NewType_of L mArg)).2 = Some err ->
  (exists h' : heap,
     run L (ABIArgumentsMarshalingToABIArguments e (Some (pre ++ mArg :: post)) h) =
       Some (None, Some err, h')) /\
  call_log L (ABIArgumentsMarshalingToABIArguments e (Some (pre ++ mArg :: post)) h) =
  call_log L (ABIArgumentsMarshalingToABIArguments e (Some (pre ++ [mArg])) h).
Proof.
  intros Hpre Herr. split.
  - eexists. rewrite run_ABIArguments, arguments_result_for. cbn [elems].
    rewrite (fill_arguments_app L pre _ Hpre). cbn [snd].
    by rewrite (fill_arguments_fails L mArg post err Herr).
  - rewrite !log_ABIArguments. cbn [elems].
    rewrite !(arguments_log_app L pre _ Hpre).
    by rewrite (arguments_log_fails L mArg post err Herr).
Qed.

(** On no argument, a nil slice or an empty one,
    [ABIArgumentsMarshalingToABIArguments] returns an empty slice that is
    not nil and no error, without any library call. *)
Theorem ABIArguments_of_no_argument {GT : GethTypes}
    (L : Lib) (e : ethAPIShim) (marshalable : slice ABIArgumentMarshaling) (h : heap) :
  len marshalable = 0 ->
  (exists h' : heap,
     run L (ABIArgumentsMarshalingToABIArguments e marshalable h) =
       Some (Some [], None, h')) /\
  call_log L (ABIArgumentsMarshalingToABIArguments e marshalable h) = [].
Proof.
  intros Hlen%length_zero_iff_nil.
  rewrite run_ABIArguments, log_ABIArguments, arguments_result_for, Hlen.
  split; [by eexists|done].
Qed.

(** The arguments are converted independently of one another: when the
    arguments [l1] convert to [a1], converting [l1 ++ l2] makes the calls
    for [l1] and then the calls for [l2], and returns [a1] followed by what
    [l2] converts to, or the error of [l2]. *)
Theorem ABIArguments_of_a_concatenation {GT : GethTypes}
    (L : Lib) (e : ethAPIShim) (l1 l2 : list ABIArgumentMarshaling)
    (a1 a2 : ABIArguments) (err : error) (h h1 h2 : heap) :
  run L (ABIArgumentsMarshalingToABIArguments e (Some l1) h) = Some (a1, None, h1) ->
  run L (ABIArgumentsMarshalingToABIArguments e (Some l2) h) = Some (a2, err, h2) ->
  (exists h' : heap,
     run L (ABIArgumentsMarshalingToABIArguments e (Some (l1 ++ l2)) h) =
       Some (match err with
             | None => Some (elems a1 ++ elems a2)
             | Some _ => None
             end, err, h')) /\
  call_log L (ABIArgumentsMarshalingToABIArguments e (Some (l1 ++ l2)) h) =
  call_log L (ABIArgumentsMarshalingToABIArguments e (Some l1) h) ++
  call_log L (ABIArgumentsMarshalingToABIArguments e (Some l2) h).
Proof.
  intros H1%run_ABIArguments_inv H2%run_ABIArguments_inv.
  rewrite arguments_result_for in H1, H2. cbn [elems] in H1, H2.
  destruct ((fill_arguments L l1).2) as [err1|] eqn:Herr1; [done|].
  apply fill_arguments_succeeds in Herr1.
  rewrite (fill_arguments_all L _ Herr1) in H1. cbn [fst] in H1.
  injection H1 as ->. split.
  - eexists. rewrite run_ABIArguments, arguments_result_for. cbn [elems].
    rewrite (fill_arguments_app L l1 l2 Herr1). cbn [fst snd].
    destruct ((fill_arguments L l2).2) as [err2|]; by injection H2 as -> ->.
  - rewrite !log_ABIArguments. cbn [elems]. by apply arguments_log_app.
Qed.

Section WithoutComponents.
Context {GT : GethTypes}.
Variable L : Lib.

Lemma arguments_log_without_components (l : list ABIArgumentMarshaling) :
  Forall (fun mArg => is_nil (am_Components mArg) = true) l ->
  exists n, n <= length l /\
    arguments_log L l =
    map (fun mArg => (NewType_without_components mArg,
                      (L (NewType_without_components mArg)).2)) (take n l).
Proof.
  induction 1 as [|mArg l Hnil _ [n [Hn IH]]].
  - by exists 0.
  - cbn [arguments_log]. unfold components_log, NewType_of, components_of.
    rewrite Hnil. fold (NewType_without_components mArg). cbn [app].
    destruct ((L (NewType_without_components mArg)).2) as [err|] eqn:Herr.
    + exists 1. split; [cbn; lia|]. cbn [take map]. rewrite take_0. cbn [map].
      by rewrite Herr.
    + exists (S n). split; [cbn; lia|]. cbn [take map]. by rewrite Herr, IH.
Qed.

End WithoutComponents.

(** When no argument has components, the only library calls
    [ABIArgumentsMarshalingToABIArguments] makes are calls of
    [abi.NewType] with nil components, one for each argument of a prefix
    of the input, in order: [encoding/json] is not used. *)
Theorem ABIArguments_without_components_calls_NewType_only {GT : GethTypes}
    (L : Lib) (e : ethAPIShim) (marshalable : slice ABIArgumentMarshaling) (h : heap) :
  Forall (fun mArg => is_nil (am_Components mArg) = true) (elems marshalable) ->
  exists n, n <= len marshalable /\
    call_log L (ABIArgumentsMarshalingToABIArguments e marshalable h) =
    map (fun mArg => (NewType_without_components mArg,
                      (L (NewType_without_components mArg)).2))
        (take n (elems marshalable)).
Proof.
  intros Hnil. rewrite log_ABIArguments.
  by apply arguments_log_without_components.
Qed.

(** An argument whose [Components] are not nil, be they empty, takes three
    library calls: [json.Marshal] of the components, [json.Unmarshal] of
    the bytes it answered, and [abi.NewType] with the components
    [json.Unmarshal] left, whatever errors the two calls of
    [encoding/json] answered. *)
Theorem ABIArguments_round_trips_components {GT : GethTypes}
    (L : Lib) (e : ethAPIShim) (mArg : ABIArgumentMarshaling) (h : heap) :
  is_nil (am_Components mArg) = false ->
  let marshal := json_Marshal_Components (am_Components mArg) in
  let unmarshal := json_Unmarshal_Components (L marshal).1 in
  let newType := abi_NewType (am_Type mArg) (am_InternalType mArg) (L unmarshal).1 in
  call_log L (ABIArgumentsMarshalingToABIArguments e (Some [mArg]) h) =
    [(marshal, (L marshal).2); (unmarshal, (L unmarshal).2); (newType, (L newType).2)] /\
  exists h' : heap,
    run L (ABIArgumentsMarshalingToABIArguments e (Some [mArg]) h) =
    Some (match (L newType).2 with
          | None => Some [mkArgument (am_Name mArg) (L newType).1 (am_Indexed mArg)]
          | Some _ => None
          end, (L newType).2, h').
Proof.
  intros Hnil marshal unmarshal newType.
  rewrite log_ABIArguments, run_ABIArguments, arguments_result_for.
  cbn [elems arguments_log fill_arguments].
  unfold components_log, NewType_of, components_of. rewrite Hnil.
  fold marshal. fold unmarshal. fold newType. split.
  - cbn [app]. by destruct ((L newType).2).
  - destruct (L newType) as [t [err|]]; by eexists.
Qed.

(** ** [ABIElementMarshalingToABIEvent] *)


(** The event [ABIElementMarshalingToABIEvent] returns is nil exactly when
    the error next to it is not, and [abi.NewEvent] is called exactly when
    no error is returned. *)
Theorem ABIEvent_nil_exactly_on_error {GT : GethTypes}
    (L : Lib) (e : ethAPIShim) (m : ABIElementMarshaling) (h : heap) :
  exists (event : ptr ABIEvent) (err : error) (h' : heap),
    run L (ABIElementMarshalingToABIEvent e (addr_of m) h) = Some (event, err, h') /\
    (event = null <-> err <> None) /\
    (err = None <->
     exists inputs,
       NewEvent_of m inputs ∈
         (call_log L (ABIElementMarshalingToABIEvent e (addr_of m) h)).*1).
Proof.
  pose proof (run_ABIEvent L e m h) as Hrun.
  pose proof (log_ABIEvent L e m h) as Hlog. rewrite Hlog.
  unfold event_result, event_log in *.
  destruct (arguments_result L (em_Inputs m)) as [inputs [err|]];
    eexists _, _, _; (split; [exact Hrun|]); (split; [done|]).
  - split; [done|]. intros [inputs' Hin]. rewrite app_nil_r in Hin.
    by apply arguments_log_calls in Hin.
  - split; [|done]. intros _. exists inputs.
    rewrite fmap_app, elem_of_app. right. by left.
Qed.

(** [ABIElementMarshalingToABIEvent] reads the name, the anonymous flag
    and the inputs of the element, and nothing else of it: two elements
    that agree on these three convert alike, with the same library
    calls. *)
Theorem ABIEvent_reads_Name_Anonymous_Inputs {GT : GethTypes}
    (L : Lib) (e : ethAPIShim) (m m' : ABIElementMarshaling) (h : heap) :
  em_Name m = em_Name m' ->
  em_Anonymous m = em_Anonymous m' ->
  em_Inputs m = em_Inputs m' ->
  run L (ABIElementMarshalingToABIEvent e (addr_of m) h) =
  run L (ABIElementMarshalingToABIEvent e (addr_of m') h) /\
  call_log L (ABIElementMarshalingToABIEvent e (addr_of m) h) =
  call_log L (ABIElementMarshalingToABIEvent e (addr_of m') h).
Proof.
  intros Hname Hanon Hin. rewrite !run_ABIEvent, !log_ABIEvent.
  unfold event_result, event_log, NewEvent_of.
  by rewrite Hname, Hanon, Hin.
Qed.

(** ** [ABIElementMarshalingToABIMethod] *)



(** The method [ABIElementMarshalingToABIMethod] returns is nil exactly
    when the error next to it is not, and [abi.NewMethod] is called
    exactly when no error is returned. *)
Theorem ABIMethod_nil_exactly_on_error {GT : GethTypes}
    (L : Lib) (e : ethAPIShim) (m : ABIElementMarshaling) (h : heap) :
  exists (method : ptr ABIMethod) (err : error) (h' : heap),
    run L (ABIElementMarshalingToABIMethod e (addr_of m) h) = Some (method, err, h') /\
    (method = null <-> err <> None) /\
    (err = None <->
     exists inputs outputs,
       NewMethod_of m inputs outputs ∈
         (call_log L (ABIElementMarshalingToABIMethod e (addr_of m) h)).*1).
Proof.
  destruct (run_ABIMethod L e m h) as (h' & _ & Hrun).
  pose proof (log_ABIMethod L e m h) as Hlog. rewrite Hlog.
  unfold method_result, method_log in *.
  destruct (arguments_result L (em_Inputs m)) as [inputs [err|]].
  { eexists _, _, _; (split; [exact Hrun|]); (split; [done|]).
    split; [done|]. intros (inputs' & outputs' & Hin). rewrite app_nil_r in Hin.
    by apply arguments_log_calls in Hin. }
  destruct (arguments_result L (em_Outputs m)) as [outputs [err|]];
    eexists _, _, _; (split; [exact Hrun|]); (split; [done|]).
  - split; [done|]. intros (inputs' & outputs' & Hin).
    rewrite app_nil_r, fmap_app, elem_of_app in Hin.
    by destruct Hin as [Hin|Hin]; apply arguments_log_calls in Hin.
  - split; [|done]. intros _. exists inputs, outputs.
    rewrite !fmap_app, !elem_of_app. right. right. by left.
Qed.

(** [ABIElementMarshalingToABIMethod] does not read the anonymous flag of
    the element: two elements that differ in it alone convert alike, with
    the same library calls. *)
Theorem ABIMethod_ignores_Anonymous {GT : GethTypes}
    (L : Lib) (e : ethAPIShim) (m : ABIElementMarshaling) (anonymous : bool)
    (h : heap) :
  let m' := mkABIElementMarshaling (em_Name m) anonymous (em_Inputs m) (em_Outputs m)
              (em_StateMutability m) (em_Constant m) (em_Payable m) in
  run L (ABIElementMarshalingToABIMethod e (addr_of m) h) =
  run L (ABIElementMarshalingToABIMethod e (addr_of m') h) /\
  call_log L (ABIElementMarshalingToABIMethod e (addr_of m) h) =
  call_log L (ABIElementMarshalingToABIMethod e (addr_of m') h).
Proof.
  intros m'. rewrite !log_ABIMethod. split; [|done].
  unfold ABIElementMarshalingToABIMethod. by step.
Qed.

(** ** [ABIEventSignature] *)


(** The signature depends on the raw name of the event and on the types
    of its inputs alone: the names of the inputs, their indexed flags and
    the other fields of the event do not enter it. *)
Theorem ABIEventSignature_depends_on_name_and_types {GT : GethTypes}
    (L : Lib) (e : ethAPIShim) (ev ev' : ABIEvent) (h : heap) :
  Event_RawName ev = Event_RawName ev' ->
  map arg_Type (elems (Event_Inputs ev)) = map arg_Type (elems (Event_Inputs ev')) ->
  exists (signature : string) (h1 h2 : heap),
    run L (ABIEventSignature e (addr_of ev) h) = Some (signature, h1) /\
    run L (ABIEventSignature e (addr_of ev') h) = Some (signature, h2).
Proof.
  intros Hname Htypes. eexists _, _, _. rewrite !run_ABIEventSignature.
  split; [reflexivity|]. rewrite Hname.
  assert (Hs : type_strings L (elems (Event_Inputs ev')) =
               type_strings L (elems (Event_Inputs ev))).
  { unfold type_strings.
    rewrite <- (map_map arg_Type (fun t => L (abi_Type_String t))
                  (elems (Event_Inputs ev'))).
    rewrite <- (map_map arg_Type (fun t => L (abi_Type_String t))
                  (elems (Event_Inputs ev))).
    by rewrite Htypes. }
  rewrite Hs. reflexivity.
Qed.

(** The two conversions compose: for a library whose [abi.NewEvent] keeps
    the raw name and the types of the inputs, the signature of the event
    [ABIElementMarshalingToABIEvent] builds from a serialized element is
    the name of the element and, between parentheses and separated by
    commas, the renderings of the types [abi.NewType] answered for its
    inputs. *)
Theorem signature_of_a_converted_event {GT : GethTypes}
    (L : Lib) (e : ethAPIShim) (m : ABIElementMarshaling) (h h1 : heap)
    (event : ptr ABIEvent) :
  NewEvent_keeps_name_and_types L ->
  run L (ABIElementMarshalingToABIEvent e (addr_of m) h) = Some (event, None, h1) ->
  exists h2 : heap,
    run L (ABIEventSignature e event h1) =
    Some (em_Name m +:+ "(" +:+
          String.concat ","
            (map (fun mArg => L (abi_Type_String (L (NewType_of L mArg)).1))
                 (elems (em_Inputs m))) +:+ ")", h2).
Proof.
  intros Hkeeps Hrun.
  pose proof (run_ABIEvent L e m h) as Hrun'.
  pose proof (eq_trans (eq_sym Hrun) Hrun') as Heq. clear Hrun Hrun'.
  unfold event_result in Heq. rewrite arguments_result_for in Heq.
  destruct ((fill_arguments L (elems (em_Inputs m))).2) as [err|] eqn:Herr;
    [by injection Heq|].
  apply fill_arguments_succeeds in Herr.
  rewrite (fill_arguments_all L _ Herr) in Heq. cbn [fst] in Heq.
  injection Heq as -> _.
  eexists. rewrite run_ABIEventSignature, strings_Join_concat.
  destruct (Hkeeps (em_Name m) (em_Name m) (em_Anonymous m)
              (Some (map (convert_argument L) (elems (em_Inputs m)))))
    as [Hname Htypes].
  unfold NewEvent_of. rewrite Hname. unfold Sprintf_v_paren_v.
  do 4 f_equal. unfold type_strings.
  rewrite <- (map_map arg_Type (fun t => L (abi_Type_String t))).
  rewrite Htypes. cbn [elems]. by rewrite !map_map.
Qed.

(** ** The shim as a whole *)
Section Calls.
Context {GT : GethTypes}.
Variable L : Lib.



End Calls.

(** A call panics exactly when it is one of [ABIEventSignature],
    [ABIElementMarshalingToABIEvent] and [ABIElementMarshalingToABIMethod]
    on a nil pointer, and then before any library call: no indexed
    assignment of the two loops is out of range. *)
Theorem shim_panics_exactly_on_nil_pointers {GT : GethTypes}
    (L : Lib) (e : ethAPIShim) (c : EthAPI) (h : heap) :
  (run L (invoke e c h) = None <-> derefs_nil c = true) /\
  (run L (invoke e c h) = None -> call_log L (invoke e c h) = []).
Proof.
  assert (Hiff : run L (invoke e c h) = None <-> derefs_nil c = true).
  { split.
    - intros Hrun. destruct (derefs_nil c) eqn:Hnil; [done|].
      destruct (invoke_returns_always L c Hnil) as (r & log & Hret).
      destruct (Hret e h) as (h' & _ & Hrun' & _).
      by pose proof (eq_trans (eq_sym Hrun) Hrun').
    - intros Hnil. by apply derefs_nil_panics. }
  split; [done|]. intros Hnil%Hiff. by apply derefs_nil_panics.
Qed.


(** ** The properties on sample inputs *)
Section SamplesOfConversionHelpers.
#[local] Existing Instance SampleTypes.

Lemma known_arguments_succeed : Forall (NewType_succeeds sample_lib) (elems known_arguments).
Proof. by repeat constructor. Qed.

Lemma sample_lib_NewEvent_keeps_name_and_types : NewEvent_keeps_name_and_types sample_lib.
Proof. by intros name rawName anonymous inputs. Qed.

(** [a uint256, c bool] converts to two arguments of these names and
    types. *)
Lemma ABIArguments_converts_argument_by_argument_witness :
  run sample_lib (ABIArgumentsMarshalingToABIArguments EthAPIShim known_arguments ∅) =
    Some (Some converted_arguments, None, heap_of_arguments converted_arguments) /\
  Some converted_arguments =
    Some (map (convert_argument sample_lib) (elems known_arguments)) /\
  len (Some converted_arguments) = len known_arguments.
Proof.
  split; [by vm_compute|].
  apply (ABIArguments_converts_argument_by_argument sample_lib EthAPIShim
           known_arguments ∅ (heap_of_arguments converted_arguments)).
  by vm_compute.
Defined.

(** On [a uint256, b foo, c bool] the error is the one of [b], and no call
    is made for [c]. *)
Lemma ABIArguments_returns_the_first_error_witness :
  Forall (NewType_succeeds sample_lib) [arg_a] /\
  (sample_lib (NewType_of sample_lib arg_b)).2 = Some "unsupported arg type: foo" /\
  (exists h' : heap,
     run sample_lib
       (ABIArgumentsMarshalingToABIArguments EthAPIShim (Some ([arg_a] ++ arg_b :: [arg_c])) ∅) =
     Some (None, Some "unsupported arg type: foo", h')) /\
  call_log sample_lib
    (ABIArgumentsMarshalingToABIArguments EthAPIShim (Some ([arg_a] ++ arg_b :: [arg_c])) ∅) =
  call_log sample_lib
    (ABIArgumentsMarshalingToABIArguments EthAPIShim (Some ([arg_a] ++ [arg_b])) ∅).
Proof.
  assert (Ha : Forall (NewType_succeeds sample_lib) [arg_a]) by (by repeat constructor).
  split; [exact Ha|]. split; [reflexivity|].
  exact (ABIArguments_returns_the_first_error sample_lib EthAPIShim [arg_a] [arg_c]
           arg_b "unsupported arg type: foo" ∅ Ha eq_refl).
Defined.

(** A nil slice converts to an empty one that is not nil. *)
Lemma ABIArguments_of_no_argument_witness :
  len (None : slice ABIArgumentMarshaling) = 0 /\
  (exists h' : heap,
     run sample_lib (ABIArgumentsMarshalingToABIArguments EthAPIShim None ∅) =
     Some (Some [], None, h')) /\
  call_log sample_lib (ABIArgumentsMarshalingToABIArguments EthAPIShim None ∅) = [].
Proof.
  split; [reflexivity|].
  exact (ABIArguments_of_no_argument sample_lib EthAPIShim None ∅ eq_refl).
Defined.

(** [a uint256] followed by [c bool]. *)
Lemma ABIArguments_of_a_concatenation_witness :
  run sample_lib (ABIArgumentsMarshalingToABIArguments EthAPIShim (Some [arg_a]) ∅) =
    Some (Some [mkArgument "a" "uint256" false], None,
          heap_of_arguments [mkArgument "a" "uint256" false]) /\
  run sample_lib (ABIArgumentsMarshalingToABIArguments EthAPIShim (Some [arg_c]) ∅) =
    Some (Some [mkArgument "c" "bool" false], None,
          heap_of_arguments [mkArgument "c" "bool" false]) /\
  (exists h' : heap,
     run sample_lib
       (ABIArgumentsMarshalingToABIArguments EthAPIShim (Some ([arg_a] ++ [arg_c])) ∅) =
     Some (Some ([mkArgument "a" "uint256" false] ++ [mkArgument "c" "bool" false]),
           None, h')) /\
  call_log sample_lib
    (ABIArgumentsMarshalingToABIArguments EthAPIShim (Some ([arg_a] ++ [arg_c])) ∅) =
  call_log sample_lib (ABIArgumentsMarshalingToABIArguments EthAPIShim (Some [arg_a]) ∅) ++
  call_log sample_lib (ABIArgumentsMarshalingToABIArguments EthAPIShim (Some [arg_c]) ∅).
Proof.
  assert (H1 : run sample_lib
                 (ABIArgumentsMarshalingToABIArguments EthAPIShim (Some [arg_a]) ∅) =
               Some (Some [mkArgument "a" "uint256" false], None,
                     heap_of_arguments [mkArgument "a" "uint256" false]))
    by (by vm_compute).
  assert (H2 : run sample_lib
                 (ABIArgumentsMarshalingToABIArguments EthAPIShim (Some [arg_c]) ∅) =
               Some (Some [mkArgument "c" "bool" false], None,
                     heap_of_arguments [mkArgument "c" "bool" false]))
    by (by vm_compute).
  split; [exact H1|]. split; [exact H2|].
  exact (ABIArguments_of_a_concatenation sample_lib EthAPIShim [arg_a] [arg_c]
           _ _ None ∅ _ _ H1 H2).
Defined.

(** None of [a uint256, b foo, c bool] has components. *)
Lemma ABIArguments_without_components_calls_NewType_only_witness :
  Forall (fun mArg => is_nil (am_Components mArg) = true) (elems sample_arguments) /\
  exists n, n <= len sample_arguments /\
    call_log sample_lib
      (ABIArgumentsMarshalingToABIArguments EthAPIShim sample_arguments ∅) =
    map (fun mArg => (NewType_without_components mArg,
                      (sample_lib (NewType_without_components mArg)).2))
        (take n (elems sample_arguments)).
Proof.
  assert (Hnil : Forall (fun mArg => is_nil (am_Components mArg) = true)
                   (elems sample_arguments)) by (by repeat constructor).
  split; [exact Hnil|].
  exact (ABIArguments_without_components_calls_NewType_only sample_lib EthAPIShim
           sample_arguments ∅ Hnil).
Defined.

(** A tuple with two components, on a library whose [encoding/json]
    fails: [abi.NewType] is called all the same, without components. *)
Lemma ABIArguments_round_trips_components_witness :
  is_nil (am_Components tuple_argument) = false /\
  call_log failing_json_lib
    (ABIArgumentsMarshalingToABIArguments EthAPIShim (Some [tuple_argument]) ∅) =
    [(json_Marshal_Components (am_Components tuple_argument),
      Some "json: unsupported value");
     (json_Unmarshal_Components None, Some "unexpected end of JSON input");
     (abi_NewType "tuple" "" None, None)] /\
  exists h' : heap,
    run failing_json_lib
      (ABIArgumentsMarshalingToABIArguments EthAPIShim (Some [tuple_argument]) ∅) =
    Some (Some [mkArgument "pair" "tuple" false], None, h').
Proof.
  split; [reflexivity|].
  exact (ABIArguments_round_trips_components failing_json_lib EthAPIShim
           tuple_argument ∅ eq_refl).
Defined.


(** [Approval] with and without the fields of a method. *)
Lemma ABIEvent_reads_Name_Anonymous_Inputs_witness :
  em_Name Approval = em_Name Approval' /\
  em_Anonymous Approval = em_Anonymous Approval' /\
  em_Inputs Approval = em_Inputs Approval' /\
  run sample_lib (ABIElementMarshalingToABIEvent EthAPIShim (addr_of Approval) ∅) =
  run sample_lib (ABIElementMarshalingToABIEvent EthAPIShim (addr_of Approval') ∅) /\
  call_log sample_lib (ABIElementMarshalingToABIEvent EthAPIShim (addr_of Approval) ∅) =
  call_log sample_lib (ABIElementMarshalingToABIEvent EthAPIShim (addr_of Approval') ∅).
Proof.
  split; [reflexivity|]. split; [reflexivity|]. split; [reflexivity|].
  exact (ABIEvent_reads_Name_Anonymous_Inputs sample_lib EthAPIShim Approval Approval'
           ∅ eq_refl eq_refl eq_refl).
Defined.



(** [Transfer] and an event of the same raw name and input types, with
    other input names and flags, have the same signature. *)
Lemma ABIEventSignature_depends_on_name_and_types_witness :
  Event_RawName Transfer = Event_RawName Transfer' /\
  map arg_Type (elems (Event_Inputs Transfer)) =
    map arg_Type (elems (Event_Inputs Transfer')) /\
  exists (signature : string) (h1 h2 : heap),
    run sample_lib (ABIEventSignature EthAPIShim (addr_of Transfer) ∅) =
      Some (signature, h1) /\
    run sample_lib (ABIEventSignature EthAPIShim (addr_of Transfer') ∅) =
      Some (signature, h2).
Proof.
  split; [reflexivity|]. split; [reflexivity|].
  exact (ABIEventSignature_depends_on_name_and_types sample_lib EthAPIShim
           Transfer Transfer' ∅ eq_refl eq_refl).
Defined.

(** The signature of the converted [Approval] is
    ["Approval(uint256,bool)"]. *)
Lemma signature_of_a_converted_event_witness :
  NewEvent_keeps_name_and_types sample_lib /\
  run sample_lib (ABIElementMarshalingToABIEvent EthAPIShim (addr_of Approval) ∅) =
    Some (addr_of (mkSampleEvent "Approval" "Approval" false (Some converted_arguments)),
          None, heap_of_arguments converted_arguments) /\
  exists h2 : heap,
    run sample_lib
      (ABIEventSignature EthAPIShim
         (addr_of (mkSampleEvent "Approval" "Approval" false (Some converted_arguments)))
         (heap_of_arguments converted_arguments)) =
    Some ("Approval" +:+ "(" +:+
          String.concat ","
            (map (fun mArg =>
                    sample_lib (abi_Type_String (sample_lib (NewType_of sample_lib mArg)).1))
                 (elems (em_Inputs Approval))) +:+ ")", h2).
Proof.
  assert (H : run sample_lib
                (ABIElementMarshalingToABIEvent EthAPIShim (addr_of Approval) ∅) =
              Some (addr_of (mkSampleEvent "Approval" "Approval" false
                               (Some converted_arguments)),
                    None, heap_of_arguments converted_arguments))
    by (by vm_compute).
  split; [exact sample_lib_NewEvent_keeps_name_and_types|]. split; [exact H|].
  exact (signature_of_a_converted_event sample_lib EthAPIShim Approval ∅ _ _
           sample_lib_NewEvent_keeps_name_and_types H).
Defined.


End SamplesOfConversionHelpers.
